(** * Mantis data gateway: a shallow embedding of [src/services/mantisApi.ts]

    The gateway class [MantisApi] wraps an HTTP client, owns one cache
    ([Map<string, {data, timestamp}>]) and offers read operations that go
    through the cache and write operations that clear it.  The embedding
    follows the TypeScript source function by function:

    - JavaScript values are a small untyped universe ([JsValue]) with the
      coercions the source relies on ([truthy], [ToString], [ToNumber]);
    - a thrown value is either the class [MantisApiError] or a plain
      [Error]; a computation that may throw returns a [Result];
    - the methods of the class are state transformers over a [World] that
      holds the cache, the clock read by [Date.now()] and the log of the
      requests handed to the HTTP client;
    - the remote tracker is a parameter ([Network]): a function from the
      requests sent so far and the current request to a reply.

    Logging ([log.info], [log.debug], ...) has no effect on any value the
    gateway returns or stores and is left out. *)

From stdpp Require Import base gmap strings list pretty.

Local Open Scope Z_scope.

(** ** JavaScript values *)

(** Numbers.  The tracker's identifiers, page numbers, HTTP statuses and
    timestamps are integers; [NaN] is kept because [Number(...)] produces it
    and [x || 0] tests for it. *)
Inductive number :=
  | NaN
  | Num (z : Z).

#[local] Set Warnings "-register-all".
Inductive JsValue :=
  | VUndefined
  | VNull
  | VBool (b : bool)
  | VNum (n : number)
  | VStr (s : string)
  | VArr (items : list JsValue)
  | VObj (fields : list (string * JsValue)).

#[global] Instance number_eq_dec : EqDecision number.
Proof. solve_decision. Defined.

(** [if (x)], [!x], [x || y], [c ? a : b] all go through ToBoolean. *)
Definition truthy_number (n : number) : bool :=
  match n with
  | NaN => false
  | Num z => negb (z =? 0)
  end.

Definition truthy (v : JsValue) : bool :=
  match v with
  | VUndefined | VNull => false
  | VBool b => b
  | VNum n => truthy_number n
  | VStr s => negb (String.eqb s "")
  | VArr _ | VObj _ => true
  end.

Definition nullish (v : JsValue) : bool :=
  match v with
  | VUndefined | VNull => true
  | _ => false
  end.

(** [a || b] *)
Definition js_or (a b : JsValue) : JsValue := if truthy a then a else b.

(** [n || k] on numbers *)
Definition number_or (n k : number) : number := if truthy_number n then n else k.

(** [`${n}`] for the numbers above: the decimal digits of the integer, with
    a minus sign below zero, as the language prints an integer of magnitude
    below 10^21. *)
Definition number_to_string (n : number) : string :=
  match n with
  | NaN => "NaN"
  | Num z => pretty z
  end.

(** ToString, as applied by template literals and by [Array.prototype.join]. *)
Fixpoint ToString (v : JsValue) : string :=
  match v with
  | VUndefined => "undefined"
  | VNull => "null"
  | VBool true => "true"
  | VBool false => "false"
  | VNum n => number_to_string n
  | VStr s => s
  | VArr items =>
      String.concat ","
        (List.map (fun x => if nullish x then "" else ToString x) items)
  | VObj _ => "[object Object]"
  end.

(** Own-property lookup in an object; a missing property reads [undefined].
    A field list carries each property name once. *)
Fixpoint assoc (k : string) (fields : list (string * JsValue)) : JsValue :=
  match fields with
  | [] => VUndefined
  | (k', v) :: rest => if String.eqb k k' then v else assoc k rest
  end.

(** ** Thrown values and results *)

(** [class MantisApiError extends Error] with its two optional public
    fields; an omitted [statusCode] is [None], an omitted [response] reads
    [undefined]. *)
Record MantisApiError := {
  message : string;
  statusCode : option Z;
  response : JsValue
}.

Inductive Thrown :=
  | ThrowMantisApiError (e : MantisApiError)
  | ThrowError (msg : string).

Inductive Result (A : Type) :=
  | Ok (a : A)
  | Throw (t : Thrown).
Arguments Ok {A} a.
Arguments Throw {A} t.

(** The message V8 words for a property read on [undefined] or [null] is not
    part of the source; one fixed text stands for it. *)
Definition TypeError_nullish : Thrown :=
  ThrowError "Cannot read properties of undefined".

(** [v.k] for the property names the source reads (never [length], never an
    index): a TypeError on [undefined]/[null], the own property on an
    object, [undefined] on every other value. *)
Definition prop (v : JsValue) (k : string) : Result JsValue :=
  match v with
  | VUndefined | VNull => Throw TypeError_nullish
  | VObj fields => Ok (assoc k fields)
  | _ => Ok VUndefined
  end.

(** [v?.k] *)
Definition opt_prop (v : JsValue) (k : string) : JsValue :=
  match v with
  | VObj fields => assoc k fields
  | _ => VUndefined
  end.

(** [v[0]] *)
Definition index0 (v : JsValue) : Result JsValue :=
  match v with
  | VUndefined | VNull => Throw TypeError_nullish
  | VArr items => Ok (List.hd VUndefined items)
  | VStr (String c _) => Ok (VStr (String c ""))
  | VObj fields => Ok (assoc "0" fields)
  | _ => Ok VUndefined
  end.

(** [Array.isArray(x) ? x : [x]] *)
Definition as_array (v : JsValue) : list JsValue :=
  match v with
  | VArr items => items
  | _ => [v]
  end.

(** ** The HTTP client and the world the gateway runs in *)

Inductive Method := GET | POST | PATCH.

Record Request := {
  method : Method;
  url : string;
  body : JsValue
}.

Record HttpResponse := {
  status : Z;
  statusText : string;
  resp_data : JsValue
}.

(** What axios rejects with: [error.response] when the server answered with
    an error status, else [error.request] when the request left but nothing
    came back, else only [error.message]. *)
Record AxiosError := {
  err_response : option HttpResponse;
  err_request : bool;
  err_message : string
}.

Inductive Outcome :=
  | Resolved (r : HttpResponse)
  | Rejected (e : AxiosError).

(** A reply of the tracker together with the milliseconds the awaited call
    took. *)
Record Reply := {
  outcome : Outcome;
  elapsed : Z
}.

Definition Network : Type := list Request -> Request -> Reply.

Record CacheEntry := {
  data : JsValue;
  timestamp : Z
}.

Record World := {
  cache : gmap string CacheEntry;
  clock : Z;
  sent : list Request
}.

(** [config.CACHE_ENABLED] and [config.CACHE_TTL_SECONDS] of
    [src/config/index.ts]. *)
Record Config := {
  CACHE_ENABLED : bool;
  CACHE_TTL_SECONDS : Z
}.

(** Methods of the class: they read and change the world and either return
    or throw. *)
Definition M (A : Type) : Type := World -> Result A * World.

#[global] Instance M_ret : MRet M := fun A a w => (Ok a, w).

#[global] Instance M_bind : MBind M := fun A B k m w =>
  match m w with
  | (Ok a, w') => k a w'
  | (Throw t, w') => (Throw t, w')
  end.

Definition throw {A} (t : Thrown) : M A := fun w => (Throw t, w).

Definition lift {A} (r : Result A) : M A := fun w => (r, w).

(** [try { body } catch (error) { handler(error) }] *)
Definition try_catch {A} (body : M A) (handler : Thrown -> M A) : M A := fun w =>
  match body w with
  | (Ok a, w') => (Ok a, w')
  | (Throw t, w') => handler t w'
  end.

Definition Date_now : M Z := fun w => (Ok (clock w), w).

Definition cache_get (key : string) : M (option CacheEntry) := fun w =>
  (Ok (cache w !! key), w).

Definition cache_set (key : string) (e : CacheEntry) : M unit := fun w =>
  (Ok tt, {| cache := <[key := e]> (cache w); clock := clock w; sent := sent w |}).

(** [clearCache()] *)
Definition clearCache : M unit := fun w =>
  (Ok tt, {| cache := ∅; clock := clock w; sent := sent w |}).

(** The rejection handler installed with [api.interceptors.response.use]. *)
Definition response_interceptor (error : AxiosError) : Thrown :=
  match err_response error with
  | Some r =>
      ThrowMantisApiError
        {| message := "API error: " +:+ pretty (status r) +:+ " " +:+ statusText r;
           statusCode := Some (status r);
           response := resp_data r |}
  | None =>
      if err_request error then
        ThrowMantisApiError
          {| message := "No API response received";
             statusCode := Some 0;
             response := VUndefined |}
      else
        ThrowMantisApiError
          {| message := "Request error: " +:+ err_message error;
             statusCode := None;
             response := VUndefined |}
  end.

(** [encodeURIComponent] on a string held as its UTF-8 bytes: the unreserved
    bytes stay, every other byte becomes [%XX]. *)
Definition hex_digit (n : N) : Ascii.ascii :=
  Ascii.ascii_of_N (if (n <? 10)%N then 48 + n else 55 + n)%N.

Definition unreserved (c : Ascii.ascii) : bool :=
  let n := Ascii.N_of_ascii c in
  ((48 <=? n) && (n <=? 57) || (65 <=? n) && (n <=? 90) || (97 <=? n) && (n <=? 122)
   || (n =? 45) || (n =? 95) || (n =? 46) || (n =? 33) || (n =? 126)
   || (n =? 42) || (n =? 39) || (n =? 40) || (n =? 41))%N.

Fixpoint encodeURIComponent (s : string) : string :=
  match s with
  | EmptyString => EmptyString
  | String c rest =>
      if unreserved c then String c (encodeURIComponent rest)
      else
        let n := Ascii.N_of_ascii c in
        String (Ascii.ascii_of_N 37) (String (hex_digit (n / 16)) (String (hex_digit (n mod 16))
          (encodeURIComponent rest)))
  end.

(** ** The gateway: [class MantisApi] *)

(** [IssueSearchParams]: every field is optional. *)
Record IssueSearchParams := {
  projectId : option number;
  statusId : option number;
  handlerId : option number;
  reporterId : option number;
  priority : option number;
  severity : option number;
  pageSize : option number;
  page : option number;
  search : option string;
  select : option (list string);
  filterId : option number;
  sort : option string;
  dir : option string
}.

(** [if (params.f) filter += `&label=${params.f}`] for a numeric field *)
Definition num_filter (label : string) (f : option number) : string :=
  match f with
  | Some n => if truthy_number n then "&" +:+ label +:+ "=" +:+ number_to_string n else ""
  | None => ""
  end.

(** [if (params.f) filter += `&label=${encodeURIComponent(params.f)}`] *)
Definition str_filter (label : string) (f : option string) : string :=
  match f with
  | Some s => if String.eqb s "" then "" else "&" +:+ label +:+ "=" +:+ encodeURIComponent s
  | None => ""
  end.

(** [if (params.select?.length) filter += `&select=${params.select.join(',')}`] *)
Definition select_filter (f : option (list string)) : string :=
  match f with
  | Some (x :: l) => "&select=" +:+ String.concat "," (x :: l)
  | _ => ""
  end.

(** The filter part of the URL, fields in the order the source appends
    them. *)
Definition issues_filter (params : IssueSearchParams) : string :=
  num_filter "project_id" (projectId params)
  +:+ num_filter "status_id" (statusId params)
  +:+ num_filter "handler_id" (handlerId params)
  +:+ num_filter "reporter_id" (reporterId params)
  +:+ num_filter "priority" (priority params)
  +:+ num_filter "severity" (severity params)
  +:+ str_filter "search" (search params)
  +:+ num_filter "filter_id" (filterId params)
  +:+ select_filter (select params)
  +:+ str_filter "sort" (sort params)
  +:+ str_filter "dir" (dir params).

(** [params.f || k] for an optional numeric field *)
Definition num_default (f : option number) (k : Z) : number :=
  match f with
  | Some n => number_or n (Num k)
  | None => Num k
  end.

Definition issues_pageSize (params : IssueSearchParams) : number :=
  num_default (pageSize params) 50.

Definition issues_page (params : IssueSearchParams) : number :=
  num_default (page params) 1.

(** [`issues-${filter}-${page}-${pageSize}`] *)
Definition issues_cacheKey (params : IssueSearchParams) : string :=
  "issues-" +:+ issues_filter params +:+ "-"
  +:+ number_to_string (issues_page params) +:+ "-"
  +:+ number_to_string (issues_pageSize params).

(** [`/issues?page=${page}&page_size=${pageSize}${filter}`] *)
Definition issues_url (params : IssueSearchParams) : string :=
  "/issues?page=" +:+ number_to_string (issues_page params)
  +:+ "&page_size=" +:+ number_to_string (issues_pageSize params)
  +:+ issues_filter params.

Section Gateway.

Context (config : Config) (net : Network).

(** The world once [req] has been sent and awaited. *)
Definition after_request (req : Request) (w : World) : World :=
  {| cache := cache w;
     clock := clock w + elapsed (net (sent w) req);
     sent := sent w ++ [req] |}.

(** [this.api.get/post/patch]: the reply of the tracker, a rejection
    going through the response interceptor. *)
Definition api_request (req : Request) : M HttpResponse := fun w =>
  match outcome (net (sent w) req) with
  | Resolved r => (Ok r, after_request req w)
  | Rejected e => (Throw (response_interceptor e), after_request req w)
  end.

Definition api_get (u : string) : M HttpResponse :=
  api_request {| method := GET; url := u; body := VUndefined |}.

Definition api_post (u : string) (d : JsValue) : M HttpResponse :=
  api_request {| method := POST; url := u; body := d |}.

Definition api_patch (u : string) (d : JsValue) : M HttpResponse :=
  api_request {| method := PATCH; url := u; body := d |}.

(** The entry under [key] when it is not expired at time [now]. *)
Definition fresh_entry (ttl_ms : Z) (cachedData : option CacheEntry) (now : Z)
  : option JsValue :=
  match cachedData with
  | Some e => if bool_decide (now - timestamp e < ttl_ms) then Some (data e) else None
  | None => None
  end.

(** [cachedRequest<T>(key, requestFn)] *)
Definition cachedRequest (key : string) (requestFn : M HttpResponse) : M JsValue :=
  hit ← (if CACHE_ENABLED config then
           cachedData ← cache_get key;
           now ← Date_now;
           mret (fresh_entry (CACHE_TTL_SECONDS config * 1000) cachedData now)
         else mret None);
  match hit with
  | Some d => mret d
  | None =>
      response ← requestFn;
      (if CACHE_ENABLED config then
         now ← Date_now;
         cache_set key {| data := resp_data response; timestamp := now |}
       else mret tt);;
      mret (resp_data response)
  end.

(** [getIssues(params)] *)
Definition getIssues (params : IssueSearchParams) : M JsValue :=
  response ← cachedRequest (issues_cacheKey params) (api_get (issues_url params));
  lift (prop response "issues").

(** [getIssueById(issueId)] *)
Definition getIssueById (issueId : number) : M JsValue :=
  response ← cachedRequest ("issue-" +:+ number_to_string issueId)
               (api_get ("/issues/" +:+ number_to_string issueId));
  issues ← lift (prop response "issues");
  lift (index0 issues).

(** [getCurrentUser()] *)
Definition getCurrentUser : M JsValue :=
  cachedRequest "current-user" (api_get "/users/me").

(** [getUser(userId)] *)
Definition getUser (userId : JsValue) : M JsValue :=
  if negb (truthy userId) then
    throw (ThrowMantisApiError
             {| message := "User ID is required";
                statusCode := None;
                response := VUndefined |})
  else
    cachedRequest ("user-" +:+ ToString userId)
      (api_get ("/users/" +:+ ToString userId)).

(** [getProjects()] *)
Definition getProjects : M JsValue :=
  cachedRequest "projects" (api_get "/projects").

(** [getUsersByProjectId(projectId)] *)
Definition getUsersByProjectId (project : number) : M JsValue :=
  cachedRequest ("users-by-project-" +:+ number_to_string project)
    (api_get ("/projects/" +:+ number_to_string project +:+ "/users")).

(** [getUserByUsername(username)] *)
Definition getUserByUsername (username : string) : M JsValue :=
  let cacheKey := "user_" +:+ username in
  cached ← cache_get cacheKey;
  now ← Date_now;
  match fresh_entry 300000 cached now with
  | Some d => mret d
  | None =>
      try_catch
        (response ← api_get ("/users/username/" +:+ encodeURIComponent username);
         let user := resp_data response in
         now' ← Date_now;
         cache_set cacheKey {| data := user; timestamp := now' |};;
         mret user)
        (fun error =>
           match error with
           | ThrowMantisApiError e => throw error
           | ThrowError msg =>
               throw (ThrowMantisApiError
                        {| message := "Failed to get user info: " +:+ msg;
                           statusCode := None;
                           response := VUndefined |})
           end)
  end.

(** [createIssue(issueData)] *)
Definition createIssue (issueData : JsValue) : M JsValue :=
  response ← api_post "/issues" issueData;
  clearCache;;
  lift (prop (resp_data response) "issue").

(** [addIssueNote(issueId, noteData)] *)
Definition addIssueNote (issueId : number) (noteData : JsValue) : M JsValue :=
  response ← api_post ("/issues/" +:+ number_to_string issueId +:+ "/notes") noteData;
  clearCache;;
  mret (resp_data response).

(** [updateIssue(issueId, updateData)].  The [try] block either returns
    the echoed issue ([Some]) or falls through ([None]); the [catch]
    block clears the cache and falls through as well. *)
Definition updateIssue (issueId : number) (updateData : JsValue) : M JsValue :=
  echoed ← try_catch
    (response ← api_patch ("/issues/" +:+ number_to_string issueId) updateData;
     clearCache;;
     let issue := opt_prop (resp_data response) "issue" in
     mret (if truthy issue then Some issue else None))
    (fun error => clearCache;; mret None);
  match echoed with
  | Some issue => mret issue
  | None => getIssueById issueId
  end.

(** [{ status: { name: status } }], with [resolution] when it is given and
    not empty. *)
Definition status_update (st : string) (resolution : option string) : JsValue :=
  VObj (("status", VObj [("name", VStr st)]) ::
        match resolution with
        | Some r => if String.eqb r "" then [] else [("resolution", VObj [("name", VStr r)])]
        | None => []
        end).

(** [{ text: note, view_state: { name: 'public' } }] *)
Definition public_note (note : string) : JsValue :=
  VObj [("text", VStr note); ("view_state", VObj [("name", VStr "public")])].

(** [changeIssueStatus(issueId, status, resolution?, note?)] *)
Definition changeIssueStatus (issueId : number) (st : string)
    (resolution note : option string) : M JsValue :=
  match note with
  | Some n => if String.eqb n "" then mret VUndefined
              else addIssueNote issueId (public_note n)
  | None => mret VUndefined
  end;;
  let updateData := status_update st resolution in
  echoed ← try_catch
    (response ← api_patch ("/issues/" +:+ number_to_string issueId) updateData;
     clearCache;;
     let issue := opt_prop (resp_data response) "issue" in
     mret (if truthy issue then Some issue else None))
    (fun error => clearCache;; mret None);
  match echoed with
  | Some issue => mret issue
  | None => getIssueById issueId
  end.

End Gateway.

(** ** The SOAP search: reply handling and the SOAP-to-Issue mapping *)

#[global] Instance Result_ret : MRet Result := fun A a => Ok a.

#[global] Instance Result_bind : MBind Result := fun A B k r =>
  match r with
  | Ok a => k a
  | Throw t => Throw t
  end.

(** [items.map(f)] for an [f] that may throw: the first throw ends it. *)
Fixpoint map_result {A B} (f : A -> Result B) (l : list A) : Result (list B) :=
  match l with
  | [] => Ok []
  | x :: rest =>
      match f x with
      | Ok y =>
          match map_result f rest with
          | Ok ys => Ok (y :: ys)
          | Throw t => Throw t
          end
      | Throw t => Throw t
      end
  end.


(** The mapped issue.  A field the interface types as a string holds
    whatever truthy value the wire had, so it stays a [JsValue]; the
    optional members are [None] when the source sets them to [undefined]. *)
Record Ref := {
  ref_id : number;
  ref_name : JsValue
}.

Record Person := {
  person_id : number;
  person_name : JsValue;
  person_email : JsValue
}.

Record CustomField := {
  cf_field : Ref;
  cf_value : JsValue
}.

Record Issue := {
  issue_id : number;
  issue_summary : JsValue;
  issue_description : JsValue;
  issue_status : Ref;
  issue_project : Ref;
  issue_category : Ref;
  issue_reporter : Person;
  issue_handler : option Person;
  issue_priority : option Ref;
  issue_severity : option Ref;
  issue_custom_fields : option (list CustomField);
  issue_created_at : JsValue;
  issue_updated_at : JsValue
}.

Section Soap.

(** The StringNumericLiteral grammar of the language ([Number] on a
    string) is not part of the source; the mapping is modelled for any
    such function. *)
Context (StringToNumber : string -> number).

(** [Number(v)] *)
Definition ToNumber (v : JsValue) : number :=
  match v with
  | VUndefined => NaN
  | VNull => Num 0
  | VBool b => Num (if b then 1 else 0)
  | VNum n => n
  | VStr s => StringToNumber s
  | VArr _ | VObj _ => StringToNumber (ToString v)
  end.

(** [Number(v) || 0] *)
Definition number_or_zero (v : JsValue) : number :=
  number_or (ToNumber v) (Num 0).

(** [v || ''] *)
Definition or_empty (v : JsValue) : JsValue := js_or v (VStr "").

(** [{ id: Number(o?.id) || 0, name: o?.name || '' }] *)
Definition map_ref (o : JsValue) : Ref :=
  {| ref_id := number_or_zero (opt_prop o "id");
     ref_name := or_empty (opt_prop o "name") |}.

(** [{ id: ..., name: ..., email: o?.email || '' }] *)
Definition map_person (o : JsValue) : Person :=
  {| person_id := number_or_zero (opt_prop o "id");
     person_name := or_empty (opt_prop o "name");
     person_email := or_empty (opt_prop o "email") |}.

(** The callback of [custom_fields.map]:
    [{ field: { id: Number(cf.field?.id) || 0, name: cf.field?.name || '' },
       value: cf.value || '' }] *)
Definition map_custom_field (cf : JsValue) : Result CustomField :=
  fld ← prop cf "field";
  val ← prop cf "value";
  mret {| cf_field := map_ref fld; cf_value := or_empty val |}.

(** [mapSoapIssue(item)] *)
Definition mapSoapIssue (item : JsValue) : Result Issue :=
  id ← prop item "id";
  summary ← prop item "summary";
  description ← prop item "description";
  st ← prop item "status";
  project ← prop item "project";
  category ← prop item "category";
  reporter ← prop item "reporter";
  handler ← prop item "handler";
  priority ← prop item "priority";
  severity ← prop item "severity";
  custom ← prop item "custom_fields";
  custom_fields ←
    (if truthy custom
     then fields ← map_result map_custom_field (as_array custom); mret (Some fields)
     else mret None);
  date_submitted ← prop item "date_submitted";
  last_updated ← prop item "last_updated";
  mret {| issue_id := number_or_zero id;
          issue_summary := or_empty summary;
          issue_description := or_empty description;
          issue_status := map_ref st;
          issue_project := map_ref project;
          issue_category := {| ref_id := Num 0; ref_name := or_empty category |};
          issue_reporter := map_person reporter;
          issue_handler := if truthy handler then Some (map_person handler) else None;
          issue_priority := if truthy priority then Some (map_ref priority) else None;
          issue_severity := if truthy severity then Some (map_ref severity) else None;
          issue_custom_fields := custom_fields;
          issue_created_at := or_empty date_submitted;
          issue_updated_at := or_empty last_updated |}.

(** [searchIssues], from the parsed reply on (the [try] block after
    [parser.parse]). *)
Definition searchIssues_parsed (parsed : JsValue) : Result (list Issue) :=
  let body := opt_prop (opt_prop parsed "Envelope") "Body" in
  let result := opt_prop (opt_prop body "mc_filter_search_issuesResponse") "return" in
  if negb (truthy result) then
    let fault := opt_prop body "Fault" in
    if truthy fault then
      Throw (ThrowMantisApiError
               {| message := "SOAP fault: " +:+
                    ToString (js_or (opt_prop fault "faultstring") (VStr "Unknown error"));
                  statusCode := None;
                  response := VUndefined |})
    else Ok []
  else map_result mapSoapIssue (as_array result).

(** What [await axios.post(...)] followed by [parser.parse] hands to the
    rest of the [try] block: the parsed document, or an [Error] thrown by
    the transport or the parser. *)
Inductive SoapReply :=
  | SoapParsed (parsed : JsValue)
  | SoapFailed (msg : string).

(** [searchIssues] with its [catch] block: a [MantisApiError] is thrown
    on, any other [Error] is wrapped. *)
Definition searchIssues (reply : SoapReply) : Result (list Issue) :=
  match
    match reply with
    | SoapParsed parsed => searchIssues_parsed parsed
    | SoapFailed msg => Throw (ThrowError msg)
    end
  with
  | Ok issues => Ok issues
  | Throw (ThrowMantisApiError e) => Throw (ThrowMantisApiError e)
  | Throw (ThrowError msg) =>
      Throw (ThrowMantisApiError
               {| message := "SOAP search failed: " +:+ msg;
                  statusCode := None;
                  response := VUndefined |})
  end.

End Soap.

(** [Number] on a string, for decimal integer literals: surrounding blanks
    are dropped, the empty string is 0, an optional sign and digits give the
    integer, any other text gives [NaN].  (The full grammar also reads
    fractions, exponents and radix prefixes, which no identifier uses.) *)
Definition is_blank (c : Ascii.ascii) : bool :=
  let n := Ascii.N_of_ascii c in
  ((n =? 32) || (9 <=? n) && (n <=? 13))%N.

Fixpoint drop_blanks (s : string) : string :=
  match s with
  | String c rest => if is_blank c then drop_blanks rest else s
  | EmptyString => EmptyString
  end.

Definition trim (s : string) : string :=
  String.rev (drop_blanks (String.rev (drop_blanks s))).

Fixpoint digits_value (s : string) (acc : Z) : option Z :=
  match s with
  | EmptyString => Some acc
  | String c rest =>
      let n := Ascii.N_of_ascii c in
      if ((48 <=? n) && (n <=? 57))%N
      then digits_value rest (10 * acc + Z.of_N (n - 48))
      else None
  end.

Definition unsigned_value (s : string) : option Z :=
  match s with
  | EmptyString => None
  | _ => digits_value s 0
  end.

Definition StringToNumber_integer (s : string) : number :=
  match trim s with
  | EmptyString => Num 0
  | String c rest =>
      let n := Ascii.N_of_ascii c in
      if (n =? 45)%N then
        match unsigned_value rest with Some z => Num (- z) | None => NaN end
      else if (n =? 43)%N then
        match unsigned_value rest with Some z => Num z | None => NaN end
      else
        match unsigned_value (String c rest) with Some z => Num z | None => NaN end
  end.

(** ** Object literals for [IssueSearchParams]

    A caller writes the parameters as an object literal, a sequence of
    [field: value] entries in some order; reading a field of the resulting
    object gives the value of its last entry. *)
Inductive ParamField :=
  | F_projectId (n : number)
  | F_statusId (n : number)
  | F_handlerId (n : number)
  | F_reporterId (n : number)
  | F_priority (n : number)
  | F_severity (n : number)
  | F_pageSize (n : number)
  | F_page (n : number)
  | F_search (s : string)
  | F_select (l : list string)
  | F_filterId (n : number)
  | F_sort (s : string)
  | F_dir (s : string).

Definition field_name (f : ParamField) : string :=
  match f with
  | F_projectId _ => "projectId"
  | F_statusId _ => "statusId"
  | F_handlerId _ => "handlerId"
  | F_reporterId _ => "reporterId"
  | F_priority _ => "priority"
  | F_severity _ => "severity"
  | F_pageSize _ => "pageSize"
  | F_page _ => "page"
  | F_search _ => "search"
  | F_select _ => "select"
  | F_filterId _ => "filterId"
  | F_sort _ => "sort"
  | F_dir _ => "dir"
  end.

Definition read_field {A} (sel : ParamField -> option A) (literal : list ParamField)
  : option A :=
  last (omap sel literal).

Definition params_of (literal : list ParamField) : IssueSearchParams :=
  {| projectId := read_field (fun f => match f with F_projectId n => Some n | _ => None end) literal;
     statusId := read_field (fun f => match f with F_statusId n => Some n | _ => None end) literal;
     handlerId := read_field (fun f => match f with F_handlerId n => Some n | _ => None end) literal;
     reporterId := read_field (fun f => match f with F_reporterId n => Some n | _ => None end) literal;
     priority := read_field (fun f => match f with F_priority n => Some n | _ => None end) literal;
     severity := read_field (fun f => match f with F_severity n => Some n | _ => None end) literal;
     pageSize := read_field (fun f => match f with F_pageSize n => Some n | _ => None end) literal;
     page := read_field (fun f => match f with F_page n => Some n | _ => None end) literal;
     search := read_field (fun f => match f with F_search s => Some s | _ => None end) literal;
     select := read_field (fun f => match f with F_select l => Some l | _ => None end) literal;
     filterId := read_field (fun f => match f with F_filterId n => Some n | _ => None end) literal;
     sort := read_field (fun f => match f with F_sort s => Some s | _ => None end) literal;
     dir := read_field (fun f => match f with F_dir s => Some s | _ => None end) literal |}.

(** ** Worlds used in statements *)

(** The world after [cachedRequest] has stored [d] under [key]. *)
Definition stored (key : string) (d : JsValue) (w : World) : World :=
  {| cache := <[key := {| data := d; timestamp := clock w |}]> (cache w);
     clock := clock w;
     sent := sent w |}.

(** The world after [clearCache()]. *)
Definition cleared (w : World) : World :=
  {| cache := ∅; clock := clock w; sent := sent w |}.

(** The same world at a later reading [now] of the clock. *)
Definition at_time (now : Z) (w : World) : World :=
  {| cache := cache w; clock := now; sent := sent w |}.

(** The entry [cachedRequest] serves from: caching is enabled, the key has
    an entry, and its age is below the time to live. *)
Definition live_entry (config : Config) (key : string) (w : World) : option CacheEntry :=
  if CACHE_ENABLED config then
    match cache w !! key with
    | Some e =>
        if bool_decide (clock w - timestamp e < CACHE_TTL_SECONDS config * 1000)
        then Some e else None
    | None => None
    end
  else None.

(** The read-through contract in the words of the specification: a live
    entry is returned as it is; otherwise the producer runs and its result
    is stored under the key with the current time and returned. *)
Definition read_through_as_specified (config : Config) (key : string)
    (requestFn : M HttpResponse) (w : World) : Prop :=
  match live_entry config key w with
  | Some e => cachedRequest config key requestFn w = (Ok (data e), w)
  | None =>
      forall r w1, requestFn w = (Ok r, w1) ->
        cachedRequest config key requestFn w
        = (Ok (resp_data r), stored key (resp_data r) w1)
  end.

(** ** Failure kinds of the HTTP client *)




(** ** The mutating operations, and the re-fetch they fall back to *)

Inductive Mutation :=
  | CreateIssue (issueData : JsValue)
  | UpdateIssue (issueId : number) (updateData : JsValue)
  | ChangeIssueStatus (issueId : number) (st : string) (resolution note : option string)
  | AddIssueNote (issueId : number) (noteData : JsValue).

Definition run_mutation (config : Config) (net : Network) (m : Mutation) : M JsValue :=
  match m with
  | CreateIssue issueData => createIssue net issueData
  | UpdateIssue issueId updateData => updateIssue config net issueId updateData
  | ChangeIssueStatus issueId st resolution note =>
      changeIssueStatus config net issueId st resolution note
  | AddIssueNote issueId noteData => addIssueNote net issueId noteData
  end.

Definition issue_key (issueId : number) : string :=
  "issue-" +:+ number_to_string issueId.

Definition issue_request (issueId : number) : Request :=
  {| method := GET; url := "/issues/" +:+ number_to_string issueId; body := VUndefined |}.

Definition patch_request (issueId : number) (updateData : JsValue) : Request :=
  {| method := PATCH; url := "/issues/" +:+ number_to_string issueId; body := updateData |}.

Definition create_request (issueData : JsValue) : Request :=
  {| method := POST; url := "/issues"; body := issueData |}.

Definition note_request (issueId : number) (noteData : JsValue) : Request :=
  {| method := POST;
     url := "/issues/" +:+ number_to_string issueId +:+ "/notes";
     body := noteData |}.

(** [response.issues[0]] *)
Definition first_issue (d : JsValue) : Result JsValue :=
  match prop d "issues" with
  | Ok issues => index0 issues
  | Throw t => Throw t
  end.

(** Fetching the issue from the tracker, not from the cache: the GET is
    sent; its rejection is thrown; its answer is stored under the issue's
    key when caching is enabled and its first issue returned. *)
Definition refetch_issue (config : Config) (net : Network) (issueId : number)
    (w : World) : Result JsValue * World :=
  let req := issue_request issueId in
  match outcome (net (sent w) req) with
  | Resolved g =>
      (first_issue (resp_data g),
       if CACHE_ENABLED config
       then stored (issue_key issueId) (resp_data g) (after_request net req w)
       else after_request net req w)
  | Rejected error => (Throw (response_interceptor error), after_request net req w)
  end.

(** The PATCH of an update: the echoed issue when the answer has one, the
    re-fetched issue when it has none or when the PATCH was rejected; the
    cache is cleared once the PATCH is over in every case. *)
Definition echo_or_refetch (config : Config) (net : Network) (issueId : number)
    (updateData : JsValue) (w : World) : Result JsValue * World :=
  let w1 := cleared (after_request net (patch_request issueId updateData) w) in
  match outcome (net (sent w) (patch_request issueId updateData)) with
  | Resolved r =>
      let issue := opt_prop (resp_data r) "issue" in
      if truthy issue then (Ok issue, w1) else refetch_issue config net issueId w1
  | Rejected _ => refetch_issue config net issueId w1
  end.

(** The first statement of [changeIssueStatus]: the note, when one is given
    and not empty, is posted as a public note. *)
Definition note_step (net : Network) (issueId : number) (note : option string)
  : M JsValue :=
  match note with
  | Some n => if String.eqb n "" then mret VUndefined
              else addIssueNote net issueId (public_note n)
  | None => mret VUndefined
  end.

(** The request a mutating operation starts with. *)
Definition first_request (m : Mutation) : Request :=
  match m with
  | CreateIssue issueData => create_request issueData
  | UpdateIssue issueId updateData => patch_request issueId updateData
  | ChangeIssueStatus issueId st resolution note =>
      match note with
      | Some n => if String.eqb n "" then patch_request issueId (status_update st resolution)
                  else note_request issueId (public_note n)
      | None => patch_request issueId (status_update st resolution)
      end
  | AddIssueNote issueId noteData => note_request issueId noteData
  end.

(** The PATCH of an update-like operation, with the issue it is about. *)
Definition patch_of (m : Mutation) : option (number * Request) :=
  match m with
  | UpdateIssue issueId updateData => Some (issueId, patch_request issueId updateData)
  | ChangeIssueStatus issueId st resolution _ =>
      Some (issueId, patch_request issueId (status_update st resolution))
  | _ => None
  end.

(** Cache invalidation in the words of the specification: once a mutating
    operation has completed, the whole cache is empty. *)
Definition mutation_empties_cache_as_specified (config : Config) (net : Network)
    (m : Mutation) (w : World) : Prop :=
  forall v w', run_mutation config net m w = (Ok v, w') -> cache w' = ∅.

(** Error propagation in the words of the specification: when the request
    that starts a mutating operation fails without answer (status code 0)
    or with an error status (status code above 0), the caller gets that
    error. *)
Definition mutation_error_propagates_as_specified (config : Config) (net : Network)
    (m : Mutation) (w : World) : Prop :=
  forall error e st,
    outcome (net (sent w) (first_request m)) = Rejected error ->
    response_interceptor error = ThrowMantisApiError e ->
    statusCode e = Some st -> 0 <= st ->
    fst (run_mutation config net m w) = Throw (ThrowMantisApiError e).

(** ** The read operations that use the cache *)

Inductive Read :=
  | ReadIssues (params : IssueSearchParams)
  | ReadIssueById (issueId : number)
  | ReadCurrentUser
  | ReadUser (userId : JsValue)
  | ReadProjects
  | ReadUsersByProjectId (project : number)
  | ReadUserByUsername (username : string).

Definition run_read (config : Config) (net : Network) (rd : Read) : M JsValue :=
  match rd with
  | ReadIssues params => getIssues config net params
  | ReadIssueById issueId => getIssueById config net issueId
  | ReadCurrentUser => getCurrentUser config net
  | ReadUser userId => getUser config net userId
  | ReadProjects => getProjects config net
  | ReadUsersByProjectId project => getUsersByProjectId config net project
  | ReadUserByUsername username => getUserByUsername net username
  end.

Definition username_key (username : string) : string := "user_" +:+ username.

Definition username_request (username : string) : Request :=
  {| method := GET;
     url := "/users/username/" +:+ encodeURIComponent username;
     body := VUndefined |}.

(** ** Concrete trackers and worlds *)

Definition caching_on : Config :=
  {| CACHE_ENABLED := true; CACHE_TTL_SECONDS := 300 |}.

Definition caching_off : Config :=
  {| CACHE_ENABLED := false; CACHE_TTL_SECONDS := 300 |}.

Definition http_ok (d : JsValue) : HttpResponse :=
  {| status := 200; statusText := "OK"; resp_data := d |}.

Definition issue7 : JsValue :=
  VObj [("id", VNum (Num 7)); ("summary", VStr "crash on save")].

(** A tracker that accepts every PATCH and POST with an empty object (no
    echoed issue) and answers every GET with issue 7 in a list envelope. *)
Definition silent_tracker : Network := fun _ req =>
  match method req with
  | GET => {| outcome := Resolved (http_ok (VObj [("issues", VArr [issue7])]));
              elapsed := 3 |}
  | _ => {| outcome := Resolved (http_ok (VObj [])); elapsed := 5 |}
  end.

Definition server_error : AxiosError :=
  {| err_response :=
       Some {| status := 500; statusText := "Internal Server Error";
               resp_data := VStr "database is down" |};
     err_request := true;
     err_message := "Request failed with status code 500" |}.

(** A tracker that answers every PATCH and POST with HTTP 500 and every GET
    with issue 7. *)
Definition failing_tracker : Network := fun _ req =>
  match method req with
  | GET => {| outcome := Resolved (http_ok (VObj [("issues", VArr [issue7])]));
              elapsed := 3 |}
  | _ => {| outcome := Rejected server_error; elapsed := 5 |}
  end.

Definition alice : JsValue :=
  VObj [("id", VNum (Num 12)); ("name", VStr "alice")].

(** A tracker that answers every request with the user alice. *)
Definition user_tracker : Network := fun _ _ =>
  {| outcome := Resolved (http_ok alice); elapsed := 4 |}.





(** The gateway right after construction, the clock reading 1000. *)
Definition boot : World := {| cache := ∅; clock := 1000; sent := [] |}.

(** The world after the project list has been read once with caching on:
    the cache holds the answer under the key [projects]. *)
Definition primed : World :=
  snd (getProjects caching_on silent_tracker boot).


(** ** XML escaping and the SOAP request *)

Definition chr_amp : Ascii.ascii := Ascii.ascii_of_N 38.
Definition chr_lt : Ascii.ascii := Ascii.ascii_of_N 60.
Definition chr_gt : Ascii.ascii := Ascii.ascii_of_N 62.
Definition chr_quot : Ascii.ascii := Ascii.ascii_of_N 34.
Definition chr_apos : Ascii.ascii := Ascii.ascii_of_N 39.

(** [str.replace(/c/g, by)] for a pattern that is the one character [c] and
    a replacement text without [$]. *)
Fixpoint replace_char (c : Ascii.ascii) (by_text : string) (str : string) : string :=
  match str with
  | EmptyString => EmptyString
  | String a rest =>
      if Ascii.eqb a c then by_text +:+ replace_char c by_text rest
      else String a (replace_char c by_text rest)
  end.

(** [xmlEscape(str)]: five replacements, one after the other. *)
Definition xmlEscape (str : string) : string :=
  replace_char chr_apos "&apos;"
    (replace_char chr_quot "&quot;"
       (replace_char chr_gt "&gt;"
          (replace_char chr_lt "&lt;"
             (replace_char chr_amp "&amp;" str)))).

(** The entity of one character, and a text escaped character by
    character: what [xmlEscape] is compared with. *)
Definition escape_char (a : Ascii.ascii) : string :=
  if Ascii.eqb a chr_amp then "&amp;"
  else if Ascii.eqb a chr_lt then "&lt;"
  else if Ascii.eqb a chr_gt then "&gt;"
  else if Ascii.eqb a chr_quot then "&quot;"
  else if Ascii.eqb a chr_apos then "&apos;"
  else String a EmptyString.

Fixpoint escape_each (str : string) : string :=
  match str with
  | EmptyString => EmptyString
  | String a rest => escape_char a +:+ escape_each rest
  end.

(** The four characters that open or close markup or an attribute value. *)
Definition is_markup (c : Ascii.ascii) : bool :=
  Ascii.eqb c chr_lt || Ascii.eqb c chr_gt || Ascii.eqb c chr_quot || Ascii.eqb c chr_apos.

(** The characters of a text. *)
Fixpoint chars (s : string) : list Ascii.ascii :=
  match s with
  | EmptyString => []
  | String a rest => a :: chars rest
  end.

(** [s] without its ending [suffix], when it ends with it. *)
Fixpoint drop_suffix (suffix : string) (s : string) : option string :=
  if String.eqb s suffix then Some EmptyString
  else
    match s with
    | EmptyString => None
    | String a rest =>
        match drop_suffix suffix rest with
        | Some r => Some (String a r)
        | None => None
        end
    end.

(** [getSoapUrl()], on the value of [config.MANTIS_API_URL]:
    [url.replace(/\/api\/rest\/?$/, '')] removes an ending [/api/rest/] or
    [/api/rest] (a text cannot end with both), then the SOAP path is
    appended. *)
Definition getSoapUrl (MANTIS_API_URL : string) : string :=
  let baseUrl :=
    match drop_suffix "/api/rest/" MANTIS_API_URL with
    | Some b => b
    | None =>
        match drop_suffix "/api/rest" MANTIS_API_URL with
        | Some b => b
        | None => MANTIS_API_URL
        end
    end in
  baseUrl +:+ "/api/soap/mantisconnect.php".

(** ** The anatomy of a read *)

(** The cache key a read uses. *)
Definition read_key (rd : Read) : string :=
  match rd with
  | ReadIssues params => issues_cacheKey params
  | ReadIssueById issueId => issue_key issueId
  | ReadCurrentUser => "current-user"
  | ReadUser userId => "user-" +:+ ToString userId
  | ReadProjects => "projects"
  | ReadUsersByProjectId project => "users-by-project-" +:+ number_to_string project
  | ReadUserByUsername username => username_key username
  end.

Definition get_request (u : string) : Request :=
  {| method := GET; url := u; body := VUndefined |}.

(** The request a read sends on a miss; [getUser] with a falsy id has
    none. *)
Definition read_request (rd : Read) : option Request :=
  match rd with
  | ReadIssues params => Some (get_request (issues_url params))
  | ReadIssueById issueId => Some (issue_request issueId)
  | ReadCurrentUser => Some (get_request "/users/me")
  | ReadUser userId =>
      if truthy userId then Some (get_request ("/users/" +:+ ToString userId)) else None
  | ReadProjects => Some (get_request "/projects")
  | ReadUsersByProjectId project =>
      Some (get_request ("/projects/" +:+ number_to_string project +:+ "/users"))
  | ReadUserByUsername username => Some (username_request username)
  end.

(** What a read makes of the answer's body before returning it. *)
Definition read_unwrap (rd : Read) (d : JsValue) : Result JsValue :=
  match rd with
  | ReadIssues _ => prop d "issues"
  | ReadIssueById _ => first_issue d
  | _ => Ok d
  end.

(** Whether a read uses the cache under a configuration, and for how many
    milliseconds an entry serves it. *)
Definition read_caches (config : Config) (rd : Read) : bool :=
  match rd with
  | ReadUserByUsername _ => true
  | _ => CACHE_ENABLED config
  end.

Definition read_ttl (config : Config) (rd : Read) : Z :=
  match rd with
  | ReadUserByUsername _ => 300000
  | _ => CACHE_TTL_SECONDS config * 1000
  end.

(** The stored body a read is served from, if any. *)
Definition read_hit (config : Config) (rd : Read) (w : World) : option JsValue :=
  if read_caches config rd
  then fresh_entry (read_ttl config rd) (cache w !! read_key rd) (clock w)
  else None.

(** Every entry of the cache was stored at or before the present reading of
    the clock. *)
Definition cache_timely (w : World) : Prop :=
  forall k e, cache w !! k = Some e -> timestamp e <= clock w.

(** A tracker that answers every request with an empty object. *)
Definition empty_tracker : Network := fun _ _ =>
  {| outcome := Resolved (http_ok (VObj [])); elapsed := 2 |}.

Definition no_response : AxiosError :=
  {| err_response := None; err_request := true; err_message := "timeout of 10000ms exceeded" |}.

(** A tracker that cannot be reached: no request gets an answer. *)
Definition down_tracker : Network := fun _ _ =>
  {| outcome := Rejected no_response; elapsed := 10000 |}.

(** The characters of a printed integer: the ten digits and the sign. *)
Definition is_digit (c : Ascii.ascii) : bool :=
  let n := Ascii.N_of_ascii c in ((48 <=? n) && (n <=? 57))%N.

Definition is_numeric_char (c : Ascii.ascii) : bool :=
  is_digit c || Ascii.eqb c (Ascii.ascii_of_N 45).

(** ** The tool layer ([src/server.ts]) *)

(** The request [getUser(id)] sends for a numeric id. *)
Definition user_request (id : Z) : Request :=
  get_request ("/users/" +:+ pretty id).

Definition user_key (id : Z) : string := "user-" +:+ pretty id.

Section Tools.

Context (config : Config) (net : Network).

(** One round of the [do { ... } while (notFoundCount < 10)] loop of the
    [get_users] tool: the [try] block fetches the user, appends it, moves
    to the next id and resets the counter; the [catch] block counts a 404
    and moves on, and does nothing at all for any other error. *)
Definition get_users_round (notFoundCount id : Z) (users : list JsValue)
  : M (Z * Z * list JsValue) :=
  try_catch
    (user ← getUser config net (VNum (Num id));
     mret (0, id + 1, users ++ [user]))
    (fun error =>
       match error with
       | ThrowMantisApiError e =>
           if bool_decide (statusCode e = Some 404)
           then mret (notFoundCount + 1, id + 1, users)
           else mret (notFoundCount, id, users)
       | ThrowError _ => mret (notFoundCount, id, users)
       end).

(** The loop, run for at most [rounds] rounds: [Some users] when the loop
    condition failed within them, [None] when the loop is still going. *)
Fixpoint get_users_loop (rounds : nat) (notFoundCount id : Z) (users : list JsValue)
  : M (option (list JsValue)) :=
  match rounds with
  | O => mret None
  | S rounds' =>
      state ← get_users_round notFoundCount id users;
      let '(notFoundCount', id', users') := state in
      if bool_decide (notFoundCount' < 10)
      then get_users_loop rounds' notFoundCount' id' users'
      else mret (Some users')
  end.

(** The [get_users] tool up to the serialisation of [users]:
    [notFoundCount = 0], [id = 1], [users = []]. *)
Definition get_users (rounds : nat) : M (option (list JsValue)) :=
  get_users_loop rounds 0 1 [].

End Tools.

(** The text content and the error flag of what a tool hands back. *)
Record ToolResult := {
  content_text : JsValue;
  isError : bool
}.

(** [isMantisConfigured()]: [!!config.MANTIS_API_KEY] *)
Definition isMantisConfigured (MANTIS_API_KEY : option string) : bool :=
  match MANTIS_API_KEY with
  | Some k => negb (String.eqb k "")
  | None => false
  end.

(** The [errorMessage] the [catch] block of [withMantisConfigured] builds.
    ([toolName] only shows for a thrown value that is not an [Error], which
    nothing in the gateway throws.) *)
Definition error_message (toolName : string) (error : Thrown) : string :=
  match error with
  | ThrowMantisApiError e =>
      "Mantis API error: " +:+ message e +:+
      match statusCode e with
      | Some st => if st =? 0 then "" else " (HTTP " +:+ pretty st +:+ ")"
      | None => ""
      end
  | ThrowError msg => msg
  end.

Section Wrapper.

(** [JSON.stringify(value, null, 2)], a function of the language: a text,
    or [undefined] for a value that has no JSON form. *)
Context (JSON_stringify : JsValue -> JsValue).

Definition not_configured : JsValue :=
  VObj [("error", VStr "Mantis API is not configured");
        ("message",
         VStr "Please set MANTIS_API_URL and MANTIS_API_KEY in environment variables")].

(** [withMantisConfigured(toolName, action)] *)
Definition withMantisConfigured (MANTIS_API_KEY : option string) (toolName : string)
    (action : M JsValue) : M ToolResult :=
  try_catch
    (if negb (isMantisConfigured MANTIS_API_KEY) then
       mret {| content_text := JSON_stringify not_configured; isError := true |}
     else
       result ← action;
       mret {| content_text :=
                 match result with
                 | VStr _ => result
                 | _ => JSON_stringify result
                 end;
               isError := false |})
    (fun error =>
       mret {| content_text :=
                 JSON_stringify (VObj [("error", VStr (error_message toolName error))]);
               isError := true |}).

End Wrapper.

Definition not_found : AxiosError :=
  {| err_response :=
       Some {| status := 404; statusText := "Not Found"; resp_data := VStr "" |};
     err_request := true;
     err_message := "Request failed with status code 404" |}.

(** A tracker with the users 1 and 2 and no other. *)
Definition two_users_tracker : Network := fun _ req =>
  if String.eqb (url req) "/users/1" then
    {| outcome := Resolved (http_ok (VObj [("id", VNum (Num 1))])); elapsed := 2 |}
  else if String.eqb (url req) "/users/2" then
    {| outcome := Resolved (http_ok (VObj [("id", VNum (Num 2))])); elapsed := 2 |}
  else {| outcome := Rejected not_found; elapsed := 2 |}.

(** No user from [id] on has an entry in the cache. *)
Definition no_user_entry_from (id : Z) (w : World) : Prop :=
  forall j, id <= j -> cache w !! user_key j = None.

(** What the text of a tool says about a request the tracker rejected. *)
Definition failure_text (error : AxiosError) : string :=
  match err_response error with
  | Some r =>
      "API error: " +:+ pretty (status r) +:+ " " +:+ statusText r +:+
      (if status r =? 0 then "" else " (HTTP " +:+ pretty (status r) +:+ ")")
  | None =>
      if err_request error then "No API response received"
      else "Request error: " +:+ err_message error
  end.

(** The action of the tools [get_issue_by_id], [get_user], [get_projects]
    and [get_users_by_project_id]: the read, then
    [JSON.stringify(result, null, 2)]. *)
Definition read_action (JSON_stringify : JsValue -> JsValue) (config : Config)
    (net : Network) (rd : Read) : M JsValue :=
  result ← run_read config net rd;
  mret (JSON_stringify result).

(** A stand-in for [JSON.stringify] in examples: it keeps the [error]
    member of an object. *)
Definition error_member (v : JsValue) : JsValue := opt_prop v "error".

(** ** The [get_issue_statistics] tool *)

Inductive GroupBy := ByStatus | ByPriority | BySeverity | ByHandler | ByReporter.

Inductive Period := PeriodAll | PeriodToday | PeriodWeek | PeriodMonth.

Definition group_member (groupBy : GroupBy) : string :=
  match groupBy with
  | ByStatus => "status"
  | ByPriority => "priority"
  | BySeverity => "severity"
  | ByHandler => "handler"
  | ByReporter => "reporter"
  end.

Definition group_default (groupBy : GroupBy) : string :=
  match groupBy with
  | ByHandler => "unassigned"
  | _ => "unknown"
  end.

(** The [switch (params.groupBy)] of the counting loop,
    [key = issue.<member>?.name || '<default>'], and the property name that
    [statistics.data[key]] makes of [key]. *)
Definition group_key (groupBy : GroupBy) (issue : JsValue) : Result string :=
  member ← prop issue (group_member groupBy);
  mret (ToString (js_or (opt_prop member "name") (VStr (group_default groupBy)))).

(** The names every object inherits from [Object.prototype].  All of them
    but [__proto__] name a function; [__proto__] is an accessor, whose
    setter ignores a value that is not an object. *)
Definition Object_prototype_names : list string :=
  ["constructor"; "hasOwnProperty"; "isPrototypeOf"; "propertyIsEnumerable";
   "toLocaleString"; "toString"; "valueOf"; "__proto__";
   "__defineGetter__"; "__defineSetter__"; "__lookupGetter__"; "__lookupSetter__"].

(** What an own property of [statistics.data] holds: a count, or the text
    that [+ 1] makes of an inherited function (the engine's rendering of the
    function followed by 1s). *)
Inductive Cell := Count (n : Z) | Text.

(** [statistics.data[key] = (statistics.data[key] || 0) + 1].  The read
    finds the own property when there is one and the inherited member
    otherwise.  For [__proto__] the read gives the prototype, [+ 1] makes a
    text of it and the setter ignores the text: [data] stays as it is.  For
    another inherited name without own property the function read becomes a
    text, which is stored, and every later [+ 1] keeps it a text.  No
    count is 0, so [count || 0] is the count. *)
Definition count_key (data : gmap string Cell) (key : string) : gmap string Cell :=
  if bool_decide (key = "__proto__") then data
  else
    match data !! key with
    | Some (Count n) => <[key := Count (n + 1)]> data
    | Some Text => <[key := Text]> data
    | None =>
        if bool_decide (key ∈ Object_prototype_names) then <[key := Text]> data
        else <[key := Count 1]> data
    end.

(** The counting loop, [filteredIssues.forEach], over the keys. *)
Definition tally (data : gmap string Cell) (keys : list string) : gmap string Cell :=
  fold_left count_key keys data.

(** [array.filter(f)] for an [f] that may throw. *)
Fixpoint filter_result {A} (f : A -> Result bool) (l : list A) : Result (list A) :=
  match l with
  | [] => Ok []
  | x :: rest =>
      match f x with
      | Ok b =>
          match filter_result f rest with
          | Ok ys => Ok (if b then x :: ys else ys)
          | Throw t => Throw t
          end
      | Throw t => Throw t
      end
  end.

(** What the action of the tool returns: the object
    [{ error: "No issues found" }], or the statistics - [total] and the own
    properties of [data]. *)
Inductive StatisticsOutcome :=
  | NoIssuesFound
  | Statistics (total : Z) (data : gmap string Cell).

Definition TypeError_not_function : Thrown := ThrowError "is not a function".

(** [x.length === 0] for a truthy [x] that is not an array. *)
Definition own_length_zero (v : JsValue) : bool :=
  match v with
  | VObj fields =>
      match assoc "length" fields with
      | VNum (Num 0) => true
      | _ => false
      end
  | _ => false
  end.

Definition weight (c : Cell) : Z :=
  match c with
  | Count n => n
  | Text => 0
  end.

(** The sum of the counts of a table. *)
Definition sum_counts (data : gmap string Cell) : Z :=
  map_fold (fun _ c acc => weight c + acc) 0 data.

(** How often [key] occurs among [keys]. *)
Definition occurrences (key : string) (keys : list string) : Z :=
  Z.of_nat (length (filter (fun k => k = key) keys)).

(** What the counting loop leaves under a name after the keys [keys]. *)
Definition cell_after (key : string) (keys : list string) : option Cell :=
  if bool_decide (key = "__proto__") then None
  else if occurrences key keys =? 0 then None
  else if bool_decide (key ∈ Object_prototype_names) then Some Text
  else Some (Count (occurrences key keys)).

(** How many of [keys] are not inherited names. *)
Definition plain_keys (keys : list string) : Z :=
  Z.of_nat (length (filter (fun k => k ∉ Object_prototype_names) keys)).


Section Statistics.

(** [new Date(created_at) >= startOfDay] (or [startOfWeek],
    [startOfMonth]) at the moment of the call: dates in local time are the
    language's. *)
Context (created_since : Period -> JsValue -> bool).

(** The callback of [issues.filter] for a period other than [all]. *)
Definition created_in_period (period : Period) (issue : JsValue) : Result bool :=
  created_at ← prop issue "created_at";
  mret (created_since period created_at).

(** The action of [get_issue_statistics] once [getIssues] has returned
    [issues], up to the serialisation of the statistics. *)
Definition issue_statistics (groupBy : GroupBy) (period : Period) (issues : JsValue)
  : Result StatisticsOutcome :=
  match issues with
  | VUndefined | VNull => Throw TypeError_nullish
  | VArr items =>
      filtered ← match period with
                 | PeriodAll => Ok items
                 | _ => filter_result (created_in_period period) items
                 end;
      match filtered with
      | [] => Ok NoIssuesFound
      | _ =>
          keys ← map_result (group_key groupBy) filtered;
          mret (Statistics (Z.of_nat (length items)) (tally ∅ keys))
      end
  | _ =>
      match period with
      | PeriodAll =>
          if negb (truthy issues) || own_length_zero issues then Ok NoIssuesFound
          else Throw TypeError_not_function
      | _ => Throw TypeError_not_function
      end
  end.

Context (config : Config) (net : Network).

(** [getIssues({ projectId: params.projectId, pageSize: 1000 })] *)
Definition statistics_params (project : option number) : IssueSearchParams :=
  {| projectId := project; statusId := None; handlerId := None; reporterId := None;
     priority := None; severity := None; pageSize := Some (Num 1000); page := None;
     search := None; select := None; filterId := None; sort := None; dir := None |}.

Definition get_issue_statistics (project : option number) (groupBy : GroupBy)
    (period : Period) : M StatisticsOutcome :=
  issues ← getIssues config net (statistics_params project);
  lift (issue_statistics groupBy period issues).

End Statistics.

Definition three_issues : JsValue :=
  VArr [VObj [("id", VNum (Num 1)); ("status", VObj [("name", VStr "new")])];
        VObj [("id", VNum (Num 2)); ("status", VObj [("name", VStr "closed")])];
        VObj [("id", VNum (Num 3)); ("status", VObj [("name", VStr "new")])]].

(** Issues whose status names are inherited names of [statistics.data]. *)
Definition odd_issues : list JsValue :=
  [VObj [("id", VNum (Num 1)); ("status", VObj [("name", VStr "new")])];
   VObj [("id", VNum (Num 2)); ("status", VObj [("name", VStr "__proto__")])];
   VObj [("id", VNum (Num 3)); ("status", VObj [("name", VStr "constructor")])];
   VObj [("id", VNum (Num 4)); ("status", VObj [("name", VStr "new")])];
   VObj [("id", VNum (Num 5)); ("status", VObj [("name", VStr "constructor")])]].

(** ** The request of the SOAP search *)

(** The parameters of [searchIssues]. *)
Record SoapSearchParams := {
  soap_search : option string;
  soap_projectId : option number;
  soap_statusId : option number;
  soap_handlerId : option number;
  soap_reporterId : option number;
  soap_pageSize : option number;
  soap_page : option number;
  soap_sort : option string;
  soap_sortDirection : option string
}.

(** [if (params.f) filterFields += `<tag>${this.xmlEscape(params.f)}</tag>`] *)
Definition text_element (tag : string) (f : option string) : string :=
  match f with
  | Some s =>
      if String.eqb s "" then ""
      else "<" +:+ tag +:+ ">" +:+ xmlEscape s +:+ "</" +:+ tag +:+ ">"
  | None => ""
  end.

(** [if (params.f) filterFields += `<tag><id>${params.f}</id></tag>`] *)
Definition id_element (tag : string) (f : option number) : string :=
  match f with
  | Some n =>
      if truthy_number n
      then "<" +:+ tag +:+ "><id>" +:+ number_to_string n +:+ "</id></" +:+ tag +:+ ">"
      else ""
  | None => ""
  end.

Definition soap_filterFields (params : SoapSearchParams) : string :=
  text_element "search" (soap_search params)
  +:+ id_element "project_id" (soap_projectId params)
  +:+ id_element "status_id" (soap_statusId params)
  +:+ id_element "handler_id" (soap_handlerId params)
  +:+ id_element "reporter_id" (soap_reporterId params)
  +:+ text_element "sort" (soap_sort params)
  +:+ text_element "sort_direction" (soap_sortDirection params).

(** [(params.page || 1) - 1] *)
Definition soap_pageNumber (params : SoapSearchParams) : number :=
  match num_default (soap_page params) 1 with
  | Num z => Num (z - 1)
  | NaN => NaN
  end.

(** [params.pageSize || 50] *)
Definition soap_perPage (params : SoapSearchParams) : number :=
  num_default (soap_pageSize params) 50.

Definition quot : string := String chr_quot EmptyString.

Definition newline : string := String (Ascii.ascii_of_N 10) EmptyString.

(** The envelope, line by line as the template literal has it;
    [apiKey = config.MANTIS_API_KEY || '']. *)
Definition soapBody (MANTIS_API_KEY : option string) (params : SoapSearchParams) : string :=
  let apiKey := match MANTIS_API_KEY with Some k => k | None => "" end in
  "<?xml version=" +:+ quot +:+ "1.0" +:+ quot +:+ " encoding=" +:+ quot +:+ "UTF-8"
    +:+ quot +:+ "?>" +:+ newline
  +:+ "<soapenv:Envelope xmlns:soapenv=" +:+ quot
    +:+ "http://schemas.xmlsoap.org/soap/envelope/" +:+ quot
    +:+ " xmlns:man=" +:+ quot +:+ "http://futureware.biz/mantisconnect" +:+ quot
    +:+ ">" +:+ newline
  +:+ "  <soapenv:Body>" +:+ newline
  +:+ "    <man:mc_filter_search_issues>" +:+ newline
  +:+ "      <man:username></man:username>" +:+ newline
  +:+ "      <man:password>" +:+ xmlEscape apiKey +:+ "</man:password>" +:+ newline
  +:+ "      <man:filter>" +:+ newline
  +:+ "        " +:+ soap_filterFields params +:+ newline
  +:+ "      </man:filter>" +:+ newline
  +:+ "      <man:page_number>" +:+ number_to_string (soap_pageNumber params)
    +:+ "</man:page_number>" +:+ newline
  +:+ "      <man:per_page>" +:+ number_to_string (soap_perPage params)
    +:+ "</man:per_page>" +:+ newline
  +:+ "    </man:mc_filter_search_issues>" +:+ newline
  +:+ "  </soapenv:Body>" +:+ newline
  +:+ "</soapenv:Envelope>".

(** The markup characters of a text, in their order. *)
Definition markup (s : string) : list Ascii.ascii :=
  List.filter is_markup (chars s).

Definition present_text (f : option string) : bool :=
  match f with
  | Some s => negb (String.eqb s "")
  | None => false
  end.

Definition present_number (f : option number) : bool :=
  match f with
  | Some n => truthy_number n
  | None => false
  end.

(** Which filters a search has. *)
Definition soap_shape (params : SoapSearchParams) : list bool :=
  [present_text (soap_search params);
   present_number (soap_projectId params);
   present_number (soap_statusId params);
   present_number (soap_handlerId params);
   present_number (soap_reporterId params);
   present_text (soap_sort params);
   present_text (soap_sortDirection params)].

Definition search_for (text : string) : SoapSearchParams :=
  {| soap_search := Some text; soap_projectId := Some (Num 3); soap_statusId := None;
     soap_handlerId := None; soap_reporterId := None; soap_pageSize := None;
     soap_page := Some (Num 2); soap_sort := None; soap_sortDirection := None |}.

(** A number that is an integer, not below zero and below 10^21: the
    numbers that a template literal prints as their decimal digits and
    nothing else (no sign, no fraction, no exponent). *)
Definition natural_number (n : number) : Prop :=
  match n with
  | Num z => 0 <= z < 10 ^ 21
  | NaN => False
  end.

Definition dash : Ascii.ascii := Ascii.ascii_of_N 45.

(** A tracker that answers every PATCH with the issue it changed, every
    POST with an empty object and every GET with issue 7 in a list
    envelope. *)
Definition echo_tracker : Network := fun _ req =>
  match method req with
  | GET => {| outcome := Resolved (http_ok (VObj [("issues", VArr [issue7])]));
              elapsed := 3 |}
  | PATCH => {| outcome := Resolved (http_ok (VObj [("issue", issue7)])); elapsed := 5 |}
  | POST => {| outcome := Resolved (http_ok (VObj [])); elapsed := 5 |}
  end.
(** * Properties *)

(** ** The definitions at work *)

Example encodeURIComponent_reserved :
  encodeURIComponent "a b&c/d" = "a%20b%26c%2Fd".
Proof. reflexivity. Qed.

Example StringToNumber_integer_blanks : StringToNumber_integer " 42 " = Num 42.
Proof. reflexivity. Qed.

Example StringToNumber_integer_text : StringToNumber_integer "12a" = NaN.
Proof. reflexivity. Qed.

Example ToNumber_one_element_array :
  ToNumber StringToNumber_integer (VArr [VStr "5"]) = Num 5.
Proof. reflexivity. Qed.

Example ToNumber_object : ToNumber StringToNumber_integer (VObj []) = NaN.
Proof. reflexivity. Qed.

Example issues_cacheKey_scenario :
  issues_cacheKey (params_of [F_projectId (Num 3); F_pageSize (Num 2); F_page (Num 1)])
  = "issues-&project_id=3-1-2".
Proof. reflexivity. Qed.

Example issues_url_scenario :
  issues_url (params_of [F_search "save file"; F_select ["id"; "summary"]])
  = "/issues?page=1&page_size=50&search=save%20file&select=id,summary".
Proof. reflexivity. Qed.

Example updateIssue_silent_tracker :
  updateIssue caching_on silent_tracker (Num 7) (VObj []) boot
  = (Ok issue7,
     {| cache := {[ "issue-7" :=
                      {| data := VObj [("issues", VArr [issue7])]; timestamp := 1008 |} ]};
        clock := 1008;
        sent := [patch_request (Num 7) (VObj []); issue_request (Num 7)] |}).
Proof. reflexivity. Qed.

(** ** The read-through cache *)

Ltac unfold_M :=
  unfold mbind, M_bind, mret, M_ret, throw, lift, try_catch,
    cache_get, cache_set, Date_now, clearCache in *.

Lemma cachedRequest_eq config key requestFn w :
  cachedRequest config key requestFn w =
  match live_entry config key w with
  | Some e => (Ok (data e), w)
  | None =>
      match requestFn w with
      | (Ok r, w1) =>
          (Ok (resp_data r),
           if CACHE_ENABLED config then stored key (resp_data r) w1 else w1)
      | (Throw t, w1) => (Throw t, w1)
      end
  end.
Proof.
  unfold cachedRequest, live_entry, fresh_entry, stored. unfold_M.
  destruct (CACHE_ENABLED config); simpl.
  - destruct (cache w !! key) as [e|]; simpl.
    + case_bool_decide; simpl; [reflexivity|].
      destruct (requestFn w) as [[r|t] w1]; reflexivity.
    + destruct (requestFn w) as [[r|t] w1]; reflexivity.
  - destruct (requestFn w) as [[r|t] w1]; reflexivity.
Qed.

Lemma live_entry_at_time config key w now e :
  CACHE_ENABLED config = true ->
  cache w !! key = Some e ->
  now - timestamp e < CACHE_TTL_SECONDS config * 1000 ->
  live_entry config key (at_time now w) = Some e.
Proof.
  intros Hen Hk Hage. unfold live_entry, at_time; simpl.
  rewrite Hen, Hk. rewrite bool_decide_eq_true_2; done.
Qed.

Lemma live_entry_lookup config key w e :
  live_entry config key w = Some e -> cache w !! key = Some e.
Proof.
  unfold live_entry. destruct (CACHE_ENABLED config); [|done].
  destruct (cache w !! key) as [e'|]; [|done].
  case_bool_decide; congruence.
Qed.

Lemma live_entry_empty config key w :
  cache w = ∅ -> live_entry config key w = None.
Proof.
  intros Hc. unfold live_entry. rewrite Hc, lookup_empty.
  destruct (CACHE_ENABLED config); reflexivity.
Qed.

(** With caching disabled the producer's result is returned but nothing is
    stored: the contract as the specification words it fails. *)
Lemma read_through_disabled_stores_nothing :
  ~ read_through_as_specified caching_off "projects"
      (api_get silent_tracker "/projects") boot.
Proof.
  unfold read_through_as_specified. simpl.
  intros H.
  specialize (H (http_ok (VObj [("issues", VArr [issue7])]))
                (after_request silent_tracker
                   {| method := GET; url := "/projects"; body := VUndefined |} boot)
                eq_refl).
  apply (f_equal (fun p => cache (snd p) !! "projects")) in H.
  vm_compute in H. discriminate H.
Qed.

(** C1 (amended).  [cachedRequest(key, requestFn)]: when caching is enabled
    and the key has an entry younger than the time to live, the stored value
    is returned and the producer is not run (the world is unchanged,
    whatever the producer is); otherwise the producer runs, its error is
    thrown on or its result is returned, and the result is stored under the
    key with the time read after the producer finished only when caching is
    enabled.  Further, with caching enabled, once a call has returned, any
    later call with the same key made while the entry is younger than the
    time to live returns the same value without running its producer. *)
Theorem cachedRequest_read_through config key requestFn w :
  cachedRequest config key requestFn w =
    match live_entry config key w with
    | Some e => (Ok (data e), w)
    | None =>
        match requestFn w with
        | (Ok r, w1) =>
            (Ok (resp_data r),
             if CACHE_ENABLED config then stored key (resp_data r) w1 else w1)
        | (Throw t, w1) => (Throw t, w1)
        end
    end
  /\ forall v w1,
       CACHE_ENABLED config = true ->
       cachedRequest config key requestFn w = (Ok v, w1) ->
       exists e,
         cache w1 !! key = Some e /\ data e = v /\
         forall now requestFn2,
           now - timestamp e < CACHE_TTL_SECONDS config * 1000 ->
           cachedRequest config key requestFn2 (at_time now w1)
           = (Ok v, at_time now w1).
Proof.
  split; [apply cachedRequest_eq|].
  intros v w1 Hen Hcall.
  assert (exists e, cache w1 !! key = Some e /\ data e = v) as (e & He & Hd).
  { rewrite cachedRequest_eq in Hcall.
    destruct (live_entry config key w) as [e|] eqn:Hlive.
    - inversion Hcall; subst. exists e. split; [|reflexivity].
      eapply live_entry_lookup; eassumption.
    - destruct (requestFn w) as [[r|t] w'] eqn:Hreq; [|discriminate].
      rewrite Hen in Hcall. inversion Hcall; subst.
      eexists. split; [apply lookup_insert_eq|reflexivity]. }
  exists e. split; [assumption|]. split; [assumption|].
  intros now requestFn2 Hage.
  rewrite cachedRequest_eq.
  rewrite (live_entry_at_time config key w1 now e Hen He Hage).
  rewrite Hd. reflexivity.
Qed.

Lemma cachedRequest_read_through_witness :
  exists v w1,
    cachedRequest caching_on "projects" (api_get silent_tracker "/projects") boot
    = (Ok v, w1)
    /\ cachedRequest caching_on "projects" (throw TypeError_nullish) (at_time 301002 w1)
       = (Ok v, at_time 301002 w1).
Proof.
  destruct (cachedRequest_read_through caching_on "projects"
              (api_get silent_tracker "/projects") boot) as [_ Hnext].
  destruct (Hnext (VObj [("issues", VArr [issue7])])
              (stored "projects" (VObj [("issues", VArr [issue7])])
                 (after_request silent_tracker
                    {| method := GET; url := "/projects"; body := VUndefined |} boot))
              eq_refl eq_refl) as (e & He & Hd & Hsecond).
  eexists _, _. split; [reflexivity|].
  apply Hsecond.
  unfold stored in He; simpl in He. rewrite lookup_insert_eq in He.
  inversion He; subst e; simpl. lia.
Defined.

(** ** Errors of the HTTP client *)




(** ** Mutations: what they return, what they leave in the cache *)

Lemma api_request_eq net req w :
  api_request net req w =
  match outcome (net (sent w) req) with
  | Resolved r => (Ok r, after_request net req w)
  | Rejected error => (Throw (response_interceptor error), after_request net req w)
  end.
Proof. reflexivity. Qed.

Lemma getIssueById_empty_cache config net issueId w :
  cache w = ∅ ->
  getIssueById config net issueId w = refetch_issue config net issueId w.
Proof.
  intros Hempty. unfold getIssueById, refetch_issue, first_issue.
  unfold mbind at 1 2. unfold M_bind.
  rewrite cachedRequest_eq, (live_entry_empty _ _ _ Hempty).
  unfold api_get, issue_request, issue_key. rewrite api_request_eq.
  destruct (outcome _) as [g|error]; [|reflexivity].
  unfold lift.
  destruct (prop (resp_data g) "issues") as [issues|t]; reflexivity.
Qed.

Lemma updateIssue_eq config net issueId updateData w :
  updateIssue config net issueId updateData w
  = echo_or_refetch config net issueId updateData w.
Proof.
  unfold updateIssue, echo_or_refetch.
  unfold mbind at 1. unfold M_bind at 1. unfold try_catch.
  unfold mbind at 1. unfold M_bind at 1.
  unfold api_patch, patch_request. rewrite api_request_eq.
  destruct (outcome _) as [r|error].
  - unfold_M. simpl.
    destruct (truthy (opt_prop (resp_data r) "issue")); [reflexivity|].
    apply getIssueById_empty_cache. reflexivity.
  - unfold_M. simpl. apply getIssueById_empty_cache. reflexivity.
Qed.

Lemma changeIssueStatus_eq config net issueId st resolution note w :
  changeIssueStatus config net issueId st resolution note w
  = match note_step net issueId note w with
    | (Ok _, w0) => echo_or_refetch config net issueId (status_update st resolution) w0
    | (Throw t, w0) => (Throw t, w0)
    end.
Proof.
  unfold changeIssueStatus. unfold mbind at 1. unfold M_bind at 1.
  fold (note_step net issueId note).
  destruct (note_step net issueId note w) as [[x|t] w0]; [|reflexivity].
  apply (updateIssue_eq config net issueId (status_update st resolution) w0).
Qed.

Lemma createIssue_eq net issueData w :
  createIssue net issueData w =
  match outcome (net (sent w) (create_request issueData)) with
  | Resolved r =>
      (prop (resp_data r) "issue", cleared (after_request net (create_request issueData) w))
  | Rejected error =>
      (Throw (response_interceptor error), after_request net (create_request issueData) w)
  end.
Proof.
  unfold createIssue, api_post, create_request.
  unfold mbind at 1. unfold M_bind at 1. rewrite api_request_eq.
  destruct (outcome _) as [r|error]; reflexivity.
Qed.

Lemma addIssueNote_eq net issueId noteData w :
  addIssueNote net issueId noteData w =
  match outcome (net (sent w) (note_request issueId noteData)) with
  | Resolved r =>
      (Ok (resp_data r), cleared (after_request net (note_request issueId noteData) w))
  | Rejected error =>
      (Throw (response_interceptor error),
       after_request net (note_request issueId noteData) w)
  end.
Proof.
  unfold addIssueNote, api_post, note_request.
  unfold mbind at 1. unfold M_bind at 1. rewrite api_request_eq.
  destruct (outcome _) as [r|error]; reflexivity.
Qed.

Lemma refetch_issue_cache config net issueId w1 v w' :
  cache w1 = ∅ ->
  refetch_issue config net issueId w1 = (Ok v, w') ->
  cache w' = ∅ \/
  (CACHE_ENABLED config = true /\
   exists g,
     outcome (net (sent w1) (issue_request issueId)) = Resolved g /\
     w' = stored (issue_key issueId) (resp_data g)
            (after_request net (issue_request issueId) w1)).
Proof.
  intros Hempty. unfold refetch_issue.
  destruct (outcome _) as [g|error] eqn:Hout; [|discriminate].
  destruct (CACHE_ENABLED config); intros H; inversion H; subst.
  - right. split; [reflexivity|]. exists g. split; reflexivity.
  - left. exact Hempty.
Qed.

Lemma echo_or_refetch_cache config net issueId updateData w v w' :
  echo_or_refetch config net issueId updateData w = (Ok v, w') ->
  cache w' = ∅ \/
  (CACHE_ENABLED config = true /\
   exists g,
     let w1 := cleared (after_request net (patch_request issueId updateData) w) in
     outcome (net (sent w1) (issue_request issueId)) = Resolved g /\
     w' = stored (issue_key issueId) (resp_data g)
            (after_request net (issue_request issueId) w1)).
Proof.
  unfold echo_or_refetch.
  destruct (outcome (net (sent w) _)) as [r|error].
  - destruct (truthy (opt_prop (resp_data r) "issue")).
    + intros H; inversion H; subst. left. reflexivity.
    + apply refetch_issue_cache. reflexivity.
  - apply refetch_issue_cache. reflexivity.
Qed.

(** After [updateIssue] has fallen back to the re-fetch with caching
    enabled, the cache holds the re-fetched issue: it is not empty. *)
Lemma updateIssue_fallback_fills_cache :
  ~ mutation_empties_cache_as_specified caching_on silent_tracker
      (UpdateIssue (Num 7) (VObj [])) boot.
Proof.
  intros H.
  specialize (H issue7
    (stored "issue-7" (VObj [("issues", VArr [issue7])])
       (after_request silent_tracker (issue_request (Num 7))
          (cleared (after_request silent_tracker
                      (patch_request (Num 7) (VObj [])) boot))))
    eq_refl).
  apply (f_equal (fun c => c !! "issue-7")) in H.
  vm_compute in H. discriminate H.
Qed.

(** C3 (amended).  Once a mutating operation ([createIssue], [updateIssue],
    [changeIssueStatus], [addIssueNote]) has returned, no entry from before
    the mutation is left in the cache: the cache is empty, or - when
    [updateIssue] or [changeIssueStatus] fell back to the re-fetch with
    caching enabled - it holds exactly the answer to the GET of that issue,
    sent after the PATCH from an emptied cache and stored at the time the
    GET finished. *)
Theorem mutation_drops_prior_entries config net m w v w'
    (Hdone : run_mutation config net m w = (Ok v, w')) :
  cache w' = ∅ \/
  exists issueId req w0 g,
    patch_of m = Some (issueId, req)
    /\ CACHE_ENABLED config = true
    /\ outcome (net (sent (cleared (after_request net req w0))) (issue_request issueId))
       = Resolved g
    /\ w' = stored (issue_key issueId) (resp_data g)
              (after_request net (issue_request issueId)
                 (cleared (after_request net req w0)))
    /\ cache w' = {[ issue_key issueId :=
                       {| data := resp_data g; timestamp := clock w' |} ]}.
Proof.
  destruct m as [issueData|issueId updateData|issueId st resolution note|issueId noteData];
    simpl in Hdone.
  - rewrite createIssue_eq in Hdone. left.
    destruct (outcome _); inversion Hdone; reflexivity.
  - rewrite updateIssue_eq in Hdone.
    destruct (echo_or_refetch_cache _ _ _ _ _ _ _ Hdone) as [Hc|(Hen & g & Hg & Hw)];
      [left; exact Hc|right].
    exists issueId, (patch_request issueId updateData), w, g.
    repeat split; try assumption. rewrite Hw. reflexivity.
  - rewrite changeIssueStatus_eq in Hdone.
    destruct (note_step net issueId note w) as [[x|t] w0]; [|discriminate].
    destruct (echo_or_refetch_cache _ _ _ _ _ _ _ Hdone) as [Hc|(Hen & g & Hg & Hw)];
      [left; exact Hc|right].
    exists issueId, (patch_request issueId (status_update st resolution)), w0, g.
    repeat split; try assumption. rewrite Hw. reflexivity.
  - rewrite addIssueNote_eq in Hdone. left.
    destruct (outcome _); inversion Hdone; reflexivity.
Qed.

Lemma mutation_drops_prior_entries_witness :
  cache primed !! "projects"
  = Some {| data := VObj [("issues", VArr [issue7])]; timestamp := 1003 |}
  /\ cache (snd (run_mutation caching_on silent_tracker
                   (ChangeIssueStatus (Num 7) "resolved" (Some "fixed") (Some "done"))
                   primed))
       !! "projects" = None.
Proof.
  split; [reflexivity|].
  set (w' := snd (run_mutation caching_on silent_tracker
                (ChangeIssueStatus (Num 7) "resolved" (Some "fixed") (Some "done"))
                primed)).
  destruct (mutation_drops_prior_entries caching_on silent_tracker
              (ChangeIssueStatus (Num 7) "resolved" (Some "fixed") (Some "done")) primed
              issue7 w' eq_refl)
    as [Hc|(issueId & req & w0 & g & Hp & _ & _ & _ & Hc)].
  - rewrite Hc. apply lookup_empty.
  - rewrite Hc. simpl in Hp. inversion Hp; subst issueId.
    apply lookup_singleton_ne. discriminate.
Defined.

(** [updateIssue] whose PATCH is answered with HTTP 500 returns the
    re-fetched issue: the error of the PATCH does not reach the caller. *)
Lemma updateIssue_swallows_patch_error :
  ~ mutation_error_propagates_as_specified caching_on failing_tracker
      (UpdateIssue (Num 7) (VObj [])) boot.
Proof.
  intros H.
  specialize (H server_error
    {| message := "API error: 500 Internal Server Error";
       statusCode := Some 500;
       response := VStr "database is down" |}
    500 eq_refl eq_refl eq_refl).
  assert (0 <= 500) as Hpos by lia.
  specialize (H Hpos).
  vm_compute in H. discriminate H.
Qed.

(** C4 (amended).  An error of the request that starts [createIssue] or
    [addIssueNote] (and of the note that [changeIssueStatus] posts first)
    reaches the caller as it is, the cache untouched.  A rejected PATCH of
    [updateIssue] or [changeIssueStatus] does not: it is caught, the cache
    is cleared and the issue is re-fetched, exactly as when the PATCH
    succeeded without echoing the issue; the caller gets the re-fetched
    issue, or the error of the re-fetch. *)
Theorem mutation_request_rejected config net w error :
  (forall issueData,
     outcome (net (sent w) (create_request issueData)) = Rejected error ->
     createIssue net issueData w
     = (Throw (response_interceptor error),
        after_request net (create_request issueData) w))
  /\ (forall issueId noteData,
        outcome (net (sent w) (note_request issueId noteData)) = Rejected error ->
        addIssueNote net issueId noteData w
        = (Throw (response_interceptor error),
           after_request net (note_request issueId noteData) w))
  /\ (forall issueId updateData,
        outcome (net (sent w) (patch_request issueId updateData)) = Rejected error ->
        updateIssue config net issueId updateData w
        = refetch_issue config net issueId
            (cleared (after_request net (patch_request issueId updateData) w)))
  /\ (forall issueId st resolution note t w0,
        note_step net issueId note w = (Throw t, w0) ->
        changeIssueStatus config net issueId st resolution note w = (Throw t, w0))
  /\ (forall issueId st resolution note x w0,
        note_step net issueId note w0 = (Ok x, w) ->
        outcome (net (sent w) (patch_request issueId (status_update st resolution)))
        = Rejected error ->
        changeIssueStatus config net issueId st resolution note w0
        = refetch_issue config net issueId
            (cleared (after_request net
                        (patch_request issueId (status_update st resolution)) w))).
Proof.
  repeat split.
  - intros issueData Hout. rewrite createIssue_eq, Hout. reflexivity.
  - intros issueId noteData Hout. rewrite addIssueNote_eq, Hout. reflexivity.
  - intros issueId updateData Hout. rewrite updateIssue_eq.
    unfold echo_or_refetch. rewrite Hout. reflexivity.
  - intros issueId st resolution note t w0 Hnote.
    rewrite changeIssueStatus_eq, Hnote. reflexivity.
  - intros issueId st resolution note x w0 Hnote Hout.
    rewrite changeIssueStatus_eq, Hnote.
    unfold echo_or_refetch. rewrite Hout. reflexivity.
Qed.

Lemma mutation_request_rejected_witness :
  fst (updateIssue caching_on failing_tracker (Num 7) (VObj []) boot) = Ok issue7
  /\ fst (createIssue failing_tracker (VObj []) boot)
     = Throw (response_interceptor server_error).
Proof.
  destruct (mutation_request_rejected caching_on failing_tracker boot server_error)
    as (Hcreate & _ & Hupdate & _).
  split.
  - rewrite (Hupdate (Num 7) (VObj []) eq_refl). reflexivity.
  - rewrite (Hcreate (VObj []) eq_refl). reflexivity.
Defined.

(** C5.  [updateIssue(issueId, updateData)] returns the issue echoed in the
    answer to the PATCH when there is one; when the answer has none, or the
    PATCH was rejected, it fetches the issue from the tracker (the cache was
    just cleared, so the GET is sent) and returns what that fetch gives.
    [changeIssueStatus] does the same with the status and resolution as the
    update, after its optional note has been posted. *)
Theorem updateIssue_echo_or_refetch config net issueId updateData w :
  updateIssue config net issueId updateData w =
    (let w1 := cleared (after_request net (patch_request issueId updateData) w) in
     match outcome (net (sent w) (patch_request issueId updateData)) with
     | Resolved r =>
         if truthy (opt_prop (resp_data r) "issue")
         then (Ok (opt_prop (resp_data r) "issue"), w1)
         else refetch_issue config net issueId w1
     | Rejected _ => refetch_issue config net issueId w1
     end)
  /\ forall st resolution note,
       changeIssueStatus config net issueId st resolution note w =
         match note_step net issueId note w with
         | (Ok _, w0) =>
             let patch := patch_request issueId (status_update st resolution) in
             let w1 := cleared (after_request net patch w0) in
             match outcome (net (sent w0) patch) with
             | Resolved r =>
                 if truthy (opt_prop (resp_data r) "issue")
                 then (Ok (opt_prop (resp_data r) "issue"), w1)
                 else refetch_issue config net issueId w1
             | Rejected _ => refetch_issue config net issueId w1
             end
         | (Throw t, w0) => (Throw t, w0)
         end.
Proof.
  split.
  - apply updateIssue_eq.
  - intros st resolution note. apply changeIssueStatus_eq.
Qed.

(** ** Reading users *)

(** C9.  [getUser(userId)] with a falsy [userId] (0, [undefined], and the
    other falsy values alike) throws the [MantisApiError] "User ID is
    required", whose [statusCode] is undefined, and leaves the world as it
    found it: no request is sent and the cache is neither read nor
    written. *)
Theorem getUser_falsy_id config net userId w (Hfalsy : truthy userId = false) :
  getUser config net userId w
  = (Throw (ThrowMantisApiError
              {| message := "User ID is required";
                 statusCode := None;
                 response := VUndefined |}),
     w).
Proof. unfold getUser. rewrite Hfalsy. reflexivity. Qed.

Lemma getUser_falsy_id_witness :
  sent (snd (getUser caching_on user_tracker (VNum (Num 0)) boot)) = []
  /\ fst (getUser caching_on user_tracker VUndefined boot)
     = Throw (ThrowMantisApiError
                {| message := "User ID is required";
                   statusCode := None;
                   response := VUndefined |}).
Proof.
  split.
  - rewrite (getUser_falsy_id caching_on user_tracker (VNum (Num 0)) boot eq_refl).
    reflexivity.
  - rewrite (getUser_falsy_id caching_on user_tracker VUndefined boot eq_refl).
    reflexivity.
Defined.

Lemma response_interceptor_typed error :
  exists e, response_interceptor error = ThrowMantisApiError e.
Proof.
  unfold response_interceptor.
  destruct (err_response error); [|destruct (err_request error)]; eauto.
Qed.

Lemma getUserByUsername_eq net username w :
  getUserByUsername net username w =
  match fresh_entry 300000 (cache w !! username_key username) (clock w) with
  | Some d => (Ok d, w)
  | None =>
      match outcome (net (sent w) (username_request username)) with
      | Resolved r =>
          (Ok (resp_data r),
           stored (username_key username) (resp_data r)
             (after_request net (username_request username) w))
      | Rejected error =>
          (Throw (response_interceptor error),
           after_request net (username_request username) w)
      end
  end.
Proof.
  unfold getUserByUsername, username_key.
  unfold mbind at 1. unfold M_bind at 1. unfold cache_get at 1.
  unfold mbind at 1. unfold M_bind at 1. unfold Date_now at 1.
  destruct (fresh_entry _ _ _) as [d|]; [reflexivity|].
  unfold try_catch. unfold mbind at 1. unfold M_bind at 1.
  unfold api_get. fold (username_request username). rewrite api_request_eq.
  destruct (outcome _) as [r|error].
  - reflexivity.
  - destruct (response_interceptor_typed error) as [e ->]. reflexivity.
Qed.














(** ** The cache key of [getIssues] *)

Lemma omap_selected_once {A} (sel : ParamField -> option A) (name : string) l :
  (forall f a, sel f = Some a -> field_name f = name) ->
  NoDup (field_name <$> l) ->
  (length (omap sel l) <= 1)%nat.
Proof.
  intros Hsel. induction l as [|f l IH]; intros Hnd; [simpl; lia|].
  rewrite fmap_cons in Hnd. apply NoDup_cons in Hnd as [Hnotin Hnd].
  change (omap sel (f :: l))
    with (match sel f with Some y => y :: omap sel l | None => omap sel l end).
  destruct (sel f) as [a|] eqn:Hf; [|auto].
  assert (omap sel l = []) as ->; [|simpl; lia].
  destruct (omap sel l) as [|b rest] eqn:Ho; [reflexivity|exfalso].
  assert (b ∈ omap sel l) as Hb by (rewrite Ho; left).
  apply list_elem_of_omap in Hb as (g & Hg & Hsg).
  apply Hnotin. rewrite (Hsel f a Hf), <- (Hsel g b Hsg).
  apply list_elem_of_fmap. exists g. split; [reflexivity|assumption].
Qed.

(** Reading a field does not depend on the order of the entries of a
    literal that names no field twice. *)
Lemma read_field_Permutation {A} (sel : ParamField -> option A) (name : string) l1 l2 :
  (forall f a, sel f = Some a -> field_name f = name) ->
  NoDup (field_name <$> l1) ->
  l1 ≡ₚ l2 ->
  read_field sel l1 = read_field sel l2.
Proof.
  intros Hsel Hnd Hperm. unfold read_field.
  pose proof (omap_selected_once sel name l1 Hsel Hnd) as Hlen.
  pose proof (omap_Permutation sel _ _ Hperm) as Hp.
  destruct (omap sel l1) as [|a [|b rest]]; simpl in Hlen.
  - apply Permutation_nil_l in Hp. rewrite <- Hp. reflexivity.
  - apply Permutation_singleton_l in Hp. rewrite <- Hp. reflexivity.
  - lia.
Qed.

Ltac same_field name :=
  apply (read_field_Permutation _ name);
  [ intros f a Hs; destruct f; inversion Hs; reflexivity
  | assumption
  | assumption ].

Lemma params_of_Permutation l1 l2 :
  NoDup (field_name <$> l1) -> l1 ≡ₚ l2 -> params_of l1 = params_of l2.
Proof.
  intros Hnd Hperm. unfold params_of.
  f_equal;
    [ same_field "projectId" | same_field "statusId" | same_field "handlerId"
    | same_field "reporterId" | same_field "priority" | same_field "severity"
    | same_field "pageSize" | same_field "page" | same_field "search"
    | same_field "select" | same_field "filterId" | same_field "sort"
    | same_field "dir" ].
Qed.

(** C7.  The cache key of [getIssues] is computed from the values of the
    parameter fields alone, each read by its name: two object literals with
    the same entries in a different order (no field named twice) give the
    same parameters, the same key string and the same request, so the two
    calls behave alike in every world and use the same cache entry. *)
Theorem issues_cacheKey_field_order l1 l2
    (Hnodup : NoDup (field_name <$> l1)) (Hperm : l1 ≡ₚ l2) :
  issues_cacheKey (params_of l1) = issues_cacheKey (params_of l2)
  /\ forall config net w,
       getIssues config net (params_of l1) w = getIssues config net (params_of l2) w.
Proof.
  rewrite (params_of_Permutation l1 l2 Hnodup Hperm). split; reflexivity.
Qed.

Lemma issues_cacheKey_field_order_witness :
  issues_cacheKey
    (params_of [F_projectId (Num 3); F_pageSize (Num 2); F_page (Num 1)])
  = issues_cacheKey
      (params_of [F_page (Num 1); F_projectId (Num 3); F_pageSize (Num 2)]).
Proof.
  apply (issues_cacheKey_field_order
           [F_projectId (Num 3); F_pageSize (Num 2); F_page (Num 1)]
           [F_page (Num 1); F_projectId (Num 3); F_pageSize (Num 2)]).
  - apply (bool_decide_unpack _). vm_compute. exact I.
  - symmetry.
    apply (Permutation_cons_append [F_projectId (Num 3); F_pageSize (Num 2)]
             (F_page (Num 1))).
Defined.

(** ** The SOAP search *)


Lemma prop_not_nullish v k : nullish v = false -> prop v k = Ok (opt_prop v k).
Proof. destruct v; simpl; congruence. Qed.






Section SoapFacts.

Context (StringToNumber : string -> number).





End SoapFacts.





(** * Further properties of the gateway and of the tool layer *)

(** ** XML escaping *)

Example xmlEscape_markup :
  xmlEscape "a<b & 'c'" = "a&lt;b &amp; &apos;c&apos;".
Proof. reflexivity. Qed.

Example getSoapUrl_default :
  getSoapUrl "https://mantisbt.org/bugs/api/rest"
  = "https://mantisbt.org/bugs/api/soap/mantisconnect.php".
Proof. reflexivity. Qed.

Lemma append_assoc (a b c : string) : (a +:+ b) +:+ c = a +:+ (b +:+ c).
Proof.
  induction a as [|x a IH]; [reflexivity|].
  change (String x ((a +:+ b) +:+ c) = String x (a +:+ (b +:+ c))).
  rewrite <- IH. reflexivity.
Qed.

Lemma replace_char_app c by_text s t :
  replace_char c by_text (s +:+ t)
  = replace_char c by_text s +:+ replace_char c by_text t.
Proof.
  induction s as [|a s IH]; [reflexivity|].
  change (String a s +:+ t) with (String a (s +:+ t)).
  cbn [replace_char]. rewrite IH.
  destruct (Ascii.eqb a c); [rewrite append_assoc|]; reflexivity.
Qed.

Lemma xmlEscape_app s t : xmlEscape (s +:+ t) = xmlEscape s +:+ xmlEscape t.
Proof. unfold xmlEscape. rewrite !replace_char_app. reflexivity. Qed.

Lemma xmlEscape_single a : xmlEscape (String a EmptyString) = escape_char a.
Proof. destruct a as [[] [] [] [] [] [] [] []]; reflexivity. Qed.

Lemma xmlEscape_escape_each str : xmlEscape str = escape_each str.
Proof.
  induction str as [|a rest IH]; [reflexivity|].
  change (String a rest) with (String a EmptyString +:+ rest).
  rewrite xmlEscape_app, xmlEscape_single, IH. reflexivity.
Qed.

Lemma chars_app s t : chars (s +:+ t) = chars s ++ chars t.
Proof.
  induction s as [|a s IH]; [reflexivity|].
  change (String a s +:+ t) with (String a (s +:+ t)).
  cbn [chars]. rewrite IH. reflexivity.
Qed.

Lemma escape_char_no_markup a :
  forallb (fun c => negb (is_markup c)) (chars (escape_char a)) = true.
Proof. destruct a as [[] [] [] [] [] [] [] []]; reflexivity. Qed.

Lemma escape_each_no_markup str :
  forallb (fun c => negb (is_markup c)) (chars (escape_each str)) = true.
Proof.
  induction str as [|a rest IH]; [reflexivity|].
  cbn [escape_each]. rewrite chars_app, forallb_app, escape_char_no_markup, IH.
  reflexivity.
Qed.

(** X1.  The five replacements of [xmlEscape], applied one after the other,
    escape every character of the text exactly once: the ampersands that the
    later replacements write are not escaped again, and no [<], no [>]
    and no double or single quote is left in the result. *)
Theorem xmlEscape_per_character str :
  xmlEscape str = escape_each str
  /\ forallb (fun c => negb (is_markup c)) (chars (xmlEscape str)) = true.
Proof.
  split; [apply xmlEscape_escape_each|].
  rewrite xmlEscape_escape_each. apply escape_each_no_markup.
Qed.

Lemma escape_char_cases a :
  (a = chr_amp /\ escape_char a = "&amp;")
  \/ (a = chr_lt /\ escape_char a = "&lt;")
  \/ (a = chr_gt /\ escape_char a = "&gt;")
  \/ (a = chr_quot /\ escape_char a = "&quot;")
  \/ (a = chr_apos /\ escape_char a = "&apos;")
  \/ (a <> chr_amp /\ escape_char a = String a EmptyString).
Proof.
  unfold escape_char.
  destruct (Ascii.eqb_spec a chr_amp); [left; split; [assumption|reflexivity]|].
  destruct (Ascii.eqb_spec a chr_lt);
    [right; left; split; [assumption|reflexivity]|].
  destruct (Ascii.eqb_spec a chr_gt);
    [do 2 right; left; split; [assumption|reflexivity]|].
  destruct (Ascii.eqb_spec a chr_quot);
    [do 3 right; left; split; [assumption|reflexivity]|].
  destruct (Ascii.eqb_spec a chr_apos);
    [do 4 right; left; split; [assumption|reflexivity]|].
  do 5 right. split; [assumption|reflexivity].
Qed.

Lemma escape_char_prefix_free a b x y :
  escape_char a +:+ x = escape_char b +:+ y -> a = b /\ x = y.
Proof.
  destruct (escape_char_cases a) as [[-> ->]|[[-> ->]|[[-> ->]|[[-> ->]|[[-> ->]|[Ha ->]]]]]];
  destruct (escape_char_cases b) as [[-> ->]|[[-> ->]|[[-> ->]|[[-> ->]|[[-> ->]|[Hb ->]]]]]];
    intros H; cbv [String.append] in H; inversion H; subst;
    try (split; reflexivity); try congruence;
    try (exfalso; apply Ha; reflexivity); try (exfalso; apply Hb; reflexivity).
Qed.

Lemma escape_char_not_empty a x : escape_char a +:+ x <> EmptyString.
Proof.
  destruct (escape_char_cases a) as [[-> ->]|[[-> ->]|[[-> ->]|[[-> ->]|[[-> ->]|[Ha ->]]]]]];
    discriminate.
Qed.

(** X2.  [xmlEscape] loses nothing: two texts with the same escaped form are
    the same text. *)
Theorem xmlEscape_injective s1 s2 : xmlEscape s1 = xmlEscape s2 -> s1 = s2.
Proof.
  rewrite !xmlEscape_escape_each. revert s2.
  induction s1 as [|a s1 IH]; intros [|b s2] H; cbn [escape_each] in H.
  - reflexivity.
  - symmetry in H. destruct (escape_char_not_empty _ _ H).
  - destruct (escape_char_not_empty _ _ H).
  - apply escape_char_prefix_free in H as [-> H]. f_equal. apply IH. exact H.
Qed.

Lemma xmlEscape_injective_witness :
  "a&amp;b" = "a&amp;b" /\ xmlEscape "a&b" <> xmlEscape "a&amp;b".
Proof.
  split.
  - apply (xmlEscape_injective "a&amp;b" "a&amp;b"). reflexivity.
  - intros H. apply xmlEscape_injective in H. discriminate H.
Defined.

(** ** The SOAP endpoint *)

Lemma chars_inj s t : chars s = chars t -> s = t.
Proof.
  revert t. induction s as [|a s IH]; intros [|b t] H; try discriminate; [reflexivity|].
  cbn [chars] in H. inversion H; subst. f_equal. apply IH. assumption.
Qed.

Lemma chars_length s : length (chars s) = String.length s.
Proof. induction s as [|a s IH]; [reflexivity|]. cbn. rewrite IH. reflexivity. Qed.

Lemma append_inj_suffix s s' t t' :
  String.length t = String.length t' ->
  s +:+ t = s' +:+ t' -> s = s' /\ t = t'.
Proof.
  intros Hlen H. apply (f_equal chars) in H. rewrite !chars_app in H.
  apply app_inj_2 in H as [Hs Ht]; [|rewrite !chars_length; exact Hlen].
  split; apply chars_inj; assumption.
Qed.

Lemma drop_suffix_Some suffix s b :
  drop_suffix suffix s = Some b -> s = b +:+ suffix.
Proof.
  revert b. induction s as [|a s IH]; intros b; cbn [drop_suffix].
  - destruct (String.eqb_spec EmptyString suffix) as [<-|]; [|discriminate].
    intros H; inversion H; reflexivity.
  - destruct (String.eqb_spec (String a s) suffix) as [<-|].
    + intros H; inversion H; reflexivity.
    + destruct (drop_suffix suffix s) as [r|]; [|discriminate].
      intros H; inversion H; subst.
      change (String a r +:+ suffix) with (String a (r +:+ suffix)).
      f_equal. apply IH. reflexivity.
Qed.

Lemma append_length s t : String.length (s +:+ t) = (String.length s + String.length t)%nat.
Proof.
  induction s as [|a s IH]; [reflexivity|].
  change (String a s +:+ t) with (String a (s +:+ t)). cbn. rewrite IH. reflexivity.
Qed.

Lemma drop_suffix_app suffix b : drop_suffix suffix (b +:+ suffix) = Some b.
Proof.
  induction b as [|a b IH].
  - change (EmptyString +:+ suffix) with suffix.
    destruct suffix; cbn [drop_suffix]; rewrite String.eqb_refl; reflexivity.
  - change (String a b +:+ suffix) with (String a (b +:+ suffix)).
    cbn [drop_suffix]. rewrite IH.
    destruct (String.eqb_spec (String a (b +:+ suffix)) suffix) as [Heq|]; [|reflexivity].
    apply (f_equal String.length) in Heq. cbn in Heq. rewrite append_length in Heq. lia.
Qed.

Lemma drop_suffix_None suffix s :
  (forall b, s <> b +:+ suffix) -> drop_suffix suffix s = None.
Proof.
  intros Hno. destruct (drop_suffix suffix s) as [b|] eqn:Hd; [|reflexivity].
  apply drop_suffix_Some in Hd. destruct (Hno b Hd).
Qed.

(** X3.  [getSoapUrl] gives the same SOAP endpoint whether the configured
    REST URL ends with [/api/rest] or with [/api/rest/]: the ending is cut
    off (once, at the end only) and the SOAP path is put in its place.  A
    URL with neither ending gets the SOAP path appended as it is. *)
Theorem getSoapUrl_rest_suffix base :
  getSoapUrl (base +:+ "/api/rest") = base +:+ "/api/soap/mantisconnect.php"
  /\ getSoapUrl (base +:+ "/api/rest/") = base +:+ "/api/soap/mantisconnect.php"
  /\ ((forall b, base <> b +:+ "/api/rest") ->
      (forall b, base <> b +:+ "/api/rest/") ->
      getSoapUrl base = base +:+ "/api/soap/mantisconnect.php").
Proof.
  unfold getSoapUrl. split; [|split].
  - rewrite (drop_suffix_None "/api/rest/").
    + rewrite drop_suffix_app. reflexivity.
    + intros b H.
      change (b +:+ "/api/rest/") with (b +:+ ("/" +:+ "api/rest/")) in H.
      rewrite <- append_assoc in H.
      apply append_inj_suffix in H as [_ H]; [discriminate H|reflexivity].
  - rewrite drop_suffix_app. reflexivity.
  - intros H1 H2. rewrite (drop_suffix_None _ _ H2), (drop_suffix_None _ _ H1).
    reflexivity.
Qed.

Lemma getSoapUrl_rest_suffix_witness :
  getSoapUrl "http://localhost/mantis/api/rest/"
  = getSoapUrl "http://localhost/mantis/api/rest"
  /\ getSoapUrl "http://localhost/mantis"
     = "http://localhost/mantis/api/soap/mantisconnect.php".
Proof.
  destruct (getSoapUrl_rest_suffix "http://localhost/mantis") as (H1 & H2 & H3).
  split.
  - change (getSoapUrl ("http://localhost/mantis" +:+ "/api/rest/")
            = getSoapUrl ("http://localhost/mantis" +:+ "/api/rest")).
    rewrite H1, H2. reflexivity.
  - apply H3.
    + intros b H. apply (f_equal (drop_suffix "/api/rest")) in H.
      rewrite drop_suffix_app in H. discriminate H.
    + intros b H. apply (f_equal (drop_suffix "/api/rest/")) in H.
      rewrite drop_suffix_app in H. discriminate H.
Defined.

(** ** Reads *)

Lemma live_entry_fresh config key w :
  data <$> live_entry config key w
  = if CACHE_ENABLED config
    then fresh_entry (CACHE_TTL_SECONDS config * 1000) (cache w !! key) (clock w)
    else None.
Proof.
  unfold live_entry, fresh_entry. destruct (CACHE_ENABLED config); [|reflexivity].
  destruct (cache w !! key) as [e|]; [|reflexivity].
  case_bool_decide; reflexivity.
Qed.

(** A read through [cachedRequest] of a GET. *)
Lemma cachedRequest_get_eq config net key u w :
  cachedRequest config key (api_get net u) w =
  match (if CACHE_ENABLED config
         then fresh_entry (CACHE_TTL_SECONDS config * 1000) (cache w !! key) (clock w)
         else None) with
  | Some d => (Ok d, w)
  | None =>
      match outcome (net (sent w) (get_request u)) with
      | Resolved r =>
          (Ok (resp_data r),
           if CACHE_ENABLED config
           then stored key (resp_data r) (after_request net (get_request u) w)
           else after_request net (get_request u) w)
      | Rejected error =>
          (Throw (response_interceptor error), after_request net (get_request u) w)
      end
  end.
Proof.
  rewrite cachedRequest_eq, <- live_entry_fresh.
  destruct (live_entry config key w) as [e|]; [reflexivity|]. simpl.
  unfold api_get. fold (get_request u). rewrite api_request_eq.
  destruct (outcome _); reflexivity.
Qed.

(** Every read has the same anatomy: no request at all ([getUser] without
    an id), a hit, or a miss followed by the tracker's answer. *)
Lemma run_read_eq config net rd w :
  run_read config net rd w =
  match read_request rd with
  | None =>
      (Throw (ThrowMantisApiError
                {| message := "User ID is required";
                   statusCode := None;
                   response := VUndefined |}), w)
  | Some req =>
      match read_hit config rd w with
      | Some d => (read_unwrap rd d, w)
      | None =>
          match outcome (net (sent w) req) with
          | Resolved r =>
              (read_unwrap rd (resp_data r),
               if read_caches config rd
               then stored (read_key rd) (resp_data r) (after_request net req w)
               else after_request net req w)
          | Rejected error =>
              (Throw (response_interceptor error), after_request net req w)
          end
      end
  end.
Proof.
  destruct rd as [params|issueId| |userId| |project|username];
    unfold read_hit; cbn [run_read read_request read_key read_unwrap read_caches read_ttl].
  - unfold getIssues. unfold mbind at 1. unfold M_bind at 1.
    rewrite cachedRequest_get_eq.
    destruct (if CACHE_ENABLED config then _ else _) as [d|]; [reflexivity|].
    destruct (outcome _); reflexivity.
  - unfold getIssueById, first_issue, issue_key, issue_request.
    fold (get_request ("/issues/" +:+ number_to_string issueId)).
    unfold mbind at 1. unfold M_bind at 1.
    rewrite cachedRequest_get_eq.
    destruct (if CACHE_ENABLED config then _ else _) as [d|].
    + unfold mbind, M_bind, lift. destruct (prop d "issues"); reflexivity.
    + destruct (outcome _) as [r|error]; [|reflexivity].
      unfold mbind, M_bind, lift. destruct (prop (resp_data r) "issues"); reflexivity.
  - unfold getCurrentUser. rewrite cachedRequest_get_eq.
    destruct (if CACHE_ENABLED config then _ else _) as [d|]; [reflexivity|].
    destruct (outcome _); reflexivity.
  - unfold getUser. destruct (truthy userId); [|reflexivity]. cbn [negb].
    rewrite cachedRequest_get_eq.
    destruct (if CACHE_ENABLED config then _ else _) as [d|]; [reflexivity|].
    destruct (outcome _); reflexivity.
  - unfold getProjects. rewrite cachedRequest_get_eq.
    destruct (if CACHE_ENABLED config then _ else _) as [d|]; [reflexivity|].
    destruct (outcome _); reflexivity.
  - unfold getUsersByProjectId. rewrite cachedRequest_get_eq.
    destruct (if CACHE_ENABLED config then _ else _) as [d|]; [reflexivity|].
    destruct (outcome _); reflexivity.
  - rewrite getUserByUsername_eq.
    destruct (fresh_entry _ _ _) as [d|]; [reflexivity|].
    destruct (outcome _); reflexivity.
Qed.

(** X4.  With caching disabled, every read that goes through
    [cachedRequest] sends its request on every call, whatever the cache
    holds, returns what that one answer gives, and leaves the cache as it
    found it. *)
Theorem read_with_caching_disabled config net rd req w
    (Hoff : CACHE_ENABLED config = false)
    (Hrd : forall username, rd <> ReadUserByUsername username)
    (Hreq : read_request rd = Some req) :
  run_read config net rd w
  = (match outcome (net (sent w) req) with
     | Resolved r => read_unwrap rd (resp_data r)
     | Rejected error => Throw (response_interceptor error)
     end,
     after_request net req w)
  /\ cache (snd (run_read config net rd w)) = cache w
  /\ sent (snd (run_read config net rd w)) = sent w ++ [req].
Proof.
  assert (run_read config net rd w
          = (match outcome (net (sent w) req) with
             | Resolved r => read_unwrap rd (resp_data r)
             | Rejected error => Throw (response_interceptor error)
             end,
             after_request net req w)) as Heq.
  { rewrite run_read_eq, Hreq. unfold read_hit.
    assert (read_caches config rd = false) as ->.
    { destruct rd; try exact Hoff. destruct (Hrd username eq_refl). }
    destruct (outcome _); reflexivity. }
  split; [exact Heq|]. rewrite Heq. split; reflexivity.
Qed.

Lemma read_with_caching_disabled_witness :
  sent (snd (run_read caching_off silent_tracker ReadProjects
               (snd (run_read caching_off silent_tracker ReadProjects boot))))
  = [get_request "/projects"; get_request "/projects"].
Proof.
  destruct (read_with_caching_disabled caching_off silent_tracker ReadProjects
              (get_request "/projects")
              (snd (run_read caching_off silent_tracker ReadProjects boot))
              eq_refl) as (_ & _ & Hsent).
  - intros username. discriminate.
  - reflexivity.
  - rewrite Hsent. reflexivity.
Defined.

Lemma fresh_entry_later ttl cached now now' :
  now <= now' -> fresh_entry ttl cached now = None -> fresh_entry ttl cached now' = None.
Proof.
  unfold fresh_entry. destruct cached as [e|]; [|reflexivity].
  intros Hle. repeat case_bool_decide; try discriminate; try reflexivity. lia.
Qed.

(** X5.  A read that misses and whose request the tracker rejects throws
    the interceptor's [MantisApiError] and stores nothing: the same read
    made again at any later time misses again and sends the request
    again. *)
Theorem rejected_read_not_cached config net rd req w error now
    (Hreq : read_request rd = Some req)
    (Hmiss : read_hit config rd w = None)
    (Hout : outcome (net (sent w) req) = Rejected error)
    (Hlater : clock w <= now) :
  let w1 := after_request net req w in
  run_read config net rd w = (Throw (response_interceptor error), w1)
  /\ cache w1 = cache w
  /\ read_hit config rd (at_time now w1) = None
  /\ sent (snd (run_read config net rd (at_time now w1))) = sent w ++ [req; req].
Proof.
  intros w1.
  assert (read_hit config rd (at_time now w1) = None) as Hmiss'.
  { revert Hmiss. unfold read_hit. destruct (read_caches config rd); [|reflexivity].
    apply fresh_entry_later. exact Hlater. }
  split; [|split; [reflexivity|split; [exact Hmiss'|]]].
  - rewrite run_read_eq, Hreq, Hmiss, Hout. reflexivity.
  - rewrite run_read_eq, Hreq, Hmiss'.
    destruct (outcome (net (sent (at_time now w1)) req));
      [destruct (read_caches config rd)|]; simpl;
      rewrite <- app_assoc; reflexivity.
Qed.

Lemma rejected_read_not_cached_witness :
  sent (snd (run_read caching_on down_tracker (ReadUserByUsername "alice")
               (at_time 5000
                  (snd (run_read caching_on down_tracker
                          (ReadUserByUsername "alice") boot)))))
  = [username_request "alice"; username_request "alice"].
Proof.
  destruct (rejected_read_not_cached caching_on down_tracker
              (ReadUserByUsername "alice") (username_request "alice") boot
              no_response 5000 eq_refl eq_refl eq_refl)
    as (Hrun & _ & _ & Hsent).
  - simpl. lia.
  - rewrite Hrun. exact Hsent.
Defined.

(** ** Printed numbers *)

Lemma pretty_N_char_digit x : is_digit (pretty_N_char x) = true.
Proof.
  unfold pretty_N_char.
  destruct x as [|p]; [reflexivity|].
  do 4 (destruct p as [p|p|]; try reflexivity).
Qed.

Lemma pretty_N_go_digits x s :
  forallb is_digit (chars s) = true ->
  forallb is_digit (chars (pretty_N_go x s)) = true.
Proof.
  revert s. induction (N.lt_wf_0 x) as [x _ IH]; intros s Hs.
  assert (x = 0 \/ 0 < x)%N as [->|Hpos] by lia.
  - rewrite pretty_N_go_0. exact Hs.
  - rewrite pretty_N_go_step by exact Hpos. apply IH.
    + apply N.div_lt; [exact Hpos|reflexivity].
    + cbn [chars forallb]. rewrite pretty_N_char_digit, Hs. reflexivity.
Qed.

Lemma pretty_N_digits (x : N) : forallb is_digit (chars (pretty x)) = true.
Proof.
  unfold pretty, pretty_N. case_decide; [reflexivity|].
  apply pretty_N_go_digits. reflexivity.
Qed.

Lemma pretty_N_go_not_empty x s :
  s <> EmptyString -> pretty_N_go x s <> EmptyString.
Proof.
  revert s. induction (N.lt_wf_0 x) as [x _ IH]; intros s Hs.
  assert (x = 0 \/ 0 < x)%N as [->|Hpos] by lia.
  - rewrite pretty_N_go_0. exact Hs.
  - rewrite pretty_N_go_step by exact Hpos.
    apply IH; [apply N.div_lt; [exact Hpos|reflexivity]|discriminate].
Qed.

Lemma pretty_N_not_empty (x : N) : pretty x <> EmptyString.
Proof.
  unfold pretty, pretty_N. case_decide; [discriminate|].
  assert (0 < x)%N as Hpos by lia.
  rewrite pretty_N_go_step by exact Hpos.
  apply pretty_N_go_not_empty. discriminate.
Qed.

Lemma pretty_Z_numeric (z : Z) : forallb is_numeric_char (chars (pretty z)) = true.
Proof.
  assert (forall x : N, forallb is_numeric_char (chars (pretty x)) = true) as HN.
  { intros x. pose proof (pretty_N_digits x) as H.
    rewrite forallb_forall in *. intros c Hc. unfold is_numeric_char.
    rewrite (H c Hc). reflexivity. }
  destruct z as [|p|p]; [reflexivity|apply (HN (Npos p))|].
  change (pretty (Z.neg p)) with ("-" +:+ pretty (Npos p)).
  rewrite chars_app, forallb_app, (HN (Npos p)). reflexivity.
Qed.

Lemma number_to_string_inj n1 n2 :
  number_to_string n1 = number_to_string n2 -> n1 = n2.
Proof.
  assert (forall z : Z, pretty z <> "NaN") as Hnan.
  { intros z Hz. pose proof (pretty_Z_numeric z) as H. rewrite Hz in H. discriminate H. }
  destruct n1 as [|z1], n2 as [|z2]; cbn [number_to_string]; intros H.
  - reflexivity.
  - symmetry in H. destruct (Hnan _ H).
  - destruct (Hnan _ H).
  - f_equal. apply (inj pretty). exact H.
Qed.

(** ** Cached answers *)

(** X6.  A read that uses the cache stores the tracker's answer before it
    unwraps it.  For the whole time to live the same read is then served
    from that entry without a request and gives the same outcome - also
    when the outcome is an error of the unwrapping, as the TypeError of
    [getIssueById] on an answer that has no [issues] list. *)
Theorem read_answer_reused config net rd req w g
    (Hcaches : read_caches config rd = true)
    (Hreq : read_request rd = Some req)
    (Hmiss : read_hit config rd w = None)
    (Hout : outcome (net (sent w) req) = Resolved g) :
  let w1 := stored (read_key rd) (resp_data g) (after_request net req w) in
  run_read config net rd w = (read_unwrap rd (resp_data g), w1)
  /\ forall now,
       now - clock w1 < read_ttl config rd ->
       run_read config net rd (at_time now w1)
       = (read_unwrap rd (resp_data g), at_time now w1).
Proof.
  intros w1. split.
  - rewrite run_read_eq, Hreq, Hmiss, Hout, Hcaches. reflexivity.
  - intros now Hage. rewrite run_read_eq, Hreq.
    unfold read_hit. rewrite Hcaches.
    unfold w1, stored, at_time. cbn [cache clock].
    rewrite lookup_insert_eq. unfold fresh_entry. cbn [timestamp data].
    rewrite bool_decide_eq_true_2; [reflexivity|exact Hage].
Qed.

Lemma read_answer_reused_witness :
  let first := run_read caching_on empty_tracker (ReadIssueById (Num 7)) boot in
  fst first = Throw TypeError_nullish
  /\ run_read caching_on empty_tracker (ReadIssueById (Num 7))
       (at_time 200000 (snd first))
     = (Throw TypeError_nullish, at_time 200000 (snd first))
  /\ sent (snd first) = [issue_request (Num 7)].
Proof.
  intros first.
  destruct (read_answer_reused caching_on empty_tracker (ReadIssueById (Num 7))
              (issue_request (Num 7)) boot (http_ok (VObj []))
              eq_refl eq_refl eq_refl eq_refl) as (Hfirst & Hagain).
  split; [|split].
  - unfold first. rewrite Hfirst. reflexivity.
  - unfold first. rewrite Hfirst. apply (Hagain 200000). simpl. lia.
  - unfold first. rewrite Hfirst. reflexivity.
Defined.

(** ** Timestamps *)

Lemma timely_after_request net req w :
  0 <= elapsed (net (sent w) req) ->
  cache_timely w -> cache_timely (after_request net req w).
Proof.
  intros Hlat Ht k e Hk. unfold after_request in *. cbn [cache clock] in *.
  specialize (Ht k e Hk). lia.
Qed.

Lemma timely_stored key d w : cache_timely w -> cache_timely (stored key d w).
Proof.
  intros Ht k e. unfold stored. cbn [cache clock].
  destruct (decide (key = k)) as [->|Hne].
  - rewrite lookup_insert_eq. intros H; inversion H; subst. cbn. lia.
  - rewrite lookup_insert_ne by exact Hne. apply Ht.
Qed.

Lemma timely_cleared w : cache_timely (cleared w).
Proof. intros k e. unfold cleared. cbn [cache]. rewrite lookup_empty. discriminate. Qed.

Lemma timely_refetch config net issueId w res w' :
  (forall hist req, 0 <= elapsed (net hist req)) ->
  cache_timely w ->
  refetch_issue config net issueId w = (res, w') ->
  cache_timely w' /\ clock w <= clock w'.
Proof.
  intros Hlat Ht. unfold refetch_issue.
  pose proof (Hlat (sent w) (issue_request issueId)) as Hl.
  pose proof (timely_after_request net (issue_request issueId) w Hl Ht) as Ha.
  destruct (outcome _); [destruct (CACHE_ENABLED config)|];
    intros H; inversion H; subst; (split; [|cbn; lia]);
    [apply timely_stored|..]; exact Ha.
Qed.

Lemma timely_echo_or_refetch config net issueId updateData w res w' :
  (forall hist req, 0 <= elapsed (net hist req)) ->
  echo_or_refetch config net issueId updateData w = (res, w') ->
  cache_timely w' /\ clock w <= clock w'.
Proof.
  intros Hlat. unfold echo_or_refetch.
  pose proof (Hlat (sent w) (patch_request issueId updateData)) as Hl.
  assert (forall res w',
            refetch_issue config net issueId
              (cleared (after_request net (patch_request issueId updateData) w))
            = (res, w') -> cache_timely w' /\ clock w <= clock w') as Hre.
  { intros res0 w0 H. apply timely_refetch in H as [H1 H2];
      [|exact Hlat|apply timely_cleared].
    split; [exact H1|]. cbn in H2. lia. }
  destruct (outcome (net (sent w) _)) as [r|error]; [|apply Hre].
  destruct (truthy _); [|apply Hre].
  intros H; inversion H; subst. split; [apply timely_cleared|cbn; lia].
Qed.

Lemma timely_addIssueNote net issueId noteData w res w' :
  (forall hist req, 0 <= elapsed (net hist req)) ->
  cache_timely w ->
  addIssueNote net issueId noteData w = (res, w') ->
  cache_timely w' /\ clock w <= clock w'.
Proof.
  intros Hlat Ht. rewrite addIssueNote_eq.
  pose proof (Hlat (sent w) (note_request issueId noteData)) as Hl.
  destruct (outcome _); intros H; inversion H; subst; (split; [|cbn; lia]).
  - apply timely_cleared.
  - apply timely_after_request; assumption.
Qed.

(** X7.  When no request takes negative time, no read and no mutating
    operation ever leaves an entry in the cache whose timestamp lies after
    the clock, and none sets the clock back: the age that [cachedRequest]
    and [getUserByUsername] compute is never negative. *)
Theorem cache_timestamps_not_ahead config net w
    (Hlat : forall hist req, 0 <= elapsed (net hist req))
    (Htimely : cache_timely w) :
  (forall rd res w',
     run_read config net rd w = (res, w') ->
     cache_timely w' /\ clock w <= clock w')
  /\ (forall m res w',
        run_mutation config net m w = (res, w') ->
        cache_timely w' /\ clock w <= clock w').
Proof.
  split.
  - intros rd res w'. rewrite run_read_eq.
    destruct (read_request rd) as [req|].
    + pose proof (Hlat (sent w) req) as Hl.
      pose proof (timely_after_request net req w Hl Htimely) as Ha.
      destruct (read_hit config rd w).
      * intros H; inversion H; subst. split; [exact Htimely|lia].
      * destruct (outcome _); [destruct (read_caches config rd)|];
          intros H; inversion H; subst; (split; [|cbn; lia]);
          [apply timely_stored|..]; exact Ha.
    + intros H; inversion H; subst. split; [exact Htimely|lia].
  - intros m res w'.
    destruct m as [issueData|issueId updateData|issueId st resolution note|issueId noteData];
      cbn [run_mutation].
    + rewrite createIssue_eq.
      pose proof (Hlat (sent w) (create_request issueData)) as Hl.
      destruct (outcome _); intros H; inversion H; subst; (split; [|cbn; lia]).
      * apply timely_cleared.
      * apply timely_after_request; assumption.
    + rewrite updateIssue_eq. apply timely_echo_or_refetch. exact Hlat.
    + rewrite changeIssueStatus_eq.
      destruct (note_step net issueId note w) as [[x|t] w0] eqn:Hnote.
      * intros H. apply timely_echo_or_refetch in H as [H1 H2]; [|exact Hlat].
        split; [exact H1|].
        assert (clock w <= clock w0); [|lia].
        revert Hnote. unfold note_step.
        destruct note as [n|]; [destruct (String.eqb n "")|];
          try (intros Hn; inversion Hn; subst; lia).
        intros Hn. eapply timely_addIssueNote in Hn as [_ Hn]; eassumption.
      * intros H; inversion H; subst.
        revert Hnote. unfold note_step.
        destruct note as [n|]; [destruct (String.eqb n "")|];
          [discriminate| |discriminate].
        apply timely_addIssueNote; assumption.
    + apply timely_addIssueNote; assumption.
Qed.

Lemma cache_timestamps_not_ahead_witness :
  cache_timely
    (snd (run_mutation caching_on silent_tracker (UpdateIssue (Num 7) (VObj [])) boot)).
Proof.
  destruct (cache_timestamps_not_ahead caching_on silent_tracker boot) as (_ & Hm).
  - intros hist req. unfold silent_tracker. destruct (method req); simpl; lia.
  - intros k e. unfold boot. cbn [cache]. rewrite lookup_empty. discriminate.
  - eapply Hm. apply surjective_pairing.
Defined.

(** ** A read that follows a mutation *)

Lemma append_inj_prefix s a b : s +:+ a = s +:+ b -> a = b.
Proof.
  induction s as [|c s IH]; [intros H; exact H|].
  change (String c (s +:+ a) = String c (s +:+ b) -> a = b).
  intros H. inversion H. apply IH. assumption.
Qed.







(** ** The [get_users] tool *)

Example get_users_two_users :
  fst (get_users caching_on two_users_tracker 12 boot)
  = Ok (Some [VObj [("id", VNum (Num 1))]; VObj [("id", VNum (Num 2))]]).
Proof. vm_compute. reflexivity. Qed.

Example get_users_two_users_early :
  fst (get_users caching_on two_users_tracker 11 boot) = Ok None.
Proof. vm_compute. reflexivity. Qed.

Example get_users_down :
  fst (get_users caching_on down_tracker 50 boot) = Ok None.
Proof. vm_compute. reflexivity. Qed.

Lemma getUser_number config net id w :
  id <> 0 ->
  cache w !! user_key id = None ->
  getUser config net (VNum (Num id)) w =
  match outcome (net (sent w) (user_request id)) with
  | Resolved r =>
      (Ok (resp_data r),
       if CACHE_ENABLED config
       then stored (user_key id) (resp_data r) (after_request net (user_request id) w)
       else after_request net (user_request id) w)
  | Rejected error =>
      (Throw (response_interceptor error), after_request net (user_request id) w)
  end.
Proof.
  intros Hid Hnone.
  change (getUser config net (VNum (Num id)) w)
    with (run_read config net (ReadUser (VNum (Num id))) w).
  rewrite run_read_eq. cbn [read_request truthy truthy_number].
  destruct (Z.eqb_spec id 0) as [|_]; [contradiction|]. cbn [negb].
  unfold read_hit. cbn [read_caches read_ttl read_key read_unwrap ToString number_to_string].
  fold (user_key id). fold (user_request id). rewrite Hnone.
  destruct (CACHE_ENABLED config); reflexivity.
Qed.

Lemma user_key_inj i j : user_key i = user_key j -> i = j.
Proof.
  unfold user_key. intros H. apply append_inj_prefix in H. apply (inj pretty). exact H.
Qed.

Lemma get_users_round_found config net c id users w r :
  id <> 0 ->
  cache w !! user_key id = None ->
  outcome (net (sent w) (user_request id)) = Resolved r ->
  get_users_round config net c id users w
  = (Ok (0, id + 1, users ++ [resp_data r]),
     if CACHE_ENABLED config
     then stored (user_key id) (resp_data r) (after_request net (user_request id) w)
     else after_request net (user_request id) w).
Proof.
  intros Hid Hnone Hout. unfold get_users_round, try_catch.
  unfold mbind at 1. unfold M_bind at 1.
  rewrite getUser_number by assumption. rewrite Hout. reflexivity.
Qed.

Lemma get_users_round_rejected config net c id users w error :
  id <> 0 ->
  cache w !! user_key id = None ->
  outcome (net (sent w) (user_request id)) = Rejected error ->
  get_users_round config net c id users w
  = (Ok (match err_response error with
         | Some r => if bool_decide (status r = 404) then (c + 1, id + 1, users)
                     else (c, id, users)
         | None => (c, id, users)
         end),
     after_request net (user_request id) w).
Proof.
  intros Hid Hnone Hout. unfold get_users_round, try_catch.
  unfold mbind at 1. unfold M_bind at 1.
  rewrite getUser_number by assumption. rewrite Hout.
  unfold response_interceptor.
  destruct (err_response error) as [r|]; cbn [statusCode].
  - destruct (decide (status r = 404)) as [Heq|Hne].
    + rewrite !bool_decide_eq_true_2; [reflexivity|exact Heq|congruence].
    + rewrite !bool_decide_eq_false_2; [reflexivity|exact Hne|congruence].
  - destruct (err_request error); cbn [statusCode];
      rewrite bool_decide_eq_false_2; (reflexivity || discriminate).
Qed.

Section UserProbe.

Context (config : Config) (net : Network) (n : Z) (user : Z -> HttpResponse).

Hypothesis Hfound :
  forall hist i, 1 <= i <= n -> outcome (net hist (user_request i)) = Resolved (user i).

Hypothesis Hmissing :
  forall hist i, n < i ->
    exists error r,
      outcome (net hist (user_request i)) = Rejected error
      /\ err_response error = Some r /\ status r = 404.

Lemma get_users_ten_misses (d : nat) c id users w rounds :
  c + Z.of_nat (S d) = 10 -> 0 <= c -> n < id -> 0 <= n ->
  no_user_entry_from id w ->
  (S d <= rounds)%nat ->
  exists w',
    get_users_loop config net rounds c id users w = (Ok (Some users), w')
    /\ sent w' = sent w ++ (user_request <$> seqZ id (Z.of_nat (S d))).
Proof.
  revert c id w rounds.
  induction d as [|d IH]; intros c id w rounds Hc Hc0 Hid Hn Hinv Hrounds;
    (destruct rounds as [|rounds]; [lia|]);
    destruct (Hmissing (sent w) id Hid) as (error & r & Hout & Hresp & Hst);
    cbn [get_users_loop]; unfold mbind at 1; unfold M_bind at 1;
    rewrite (get_users_round_rejected _ _ _ _ _ _ error) by (try lia; auto; apply Hinv; lia);
    rewrite Hresp, bool_decide_eq_true_2 by exact Hst.
  - rewrite bool_decide_eq_false_2 by lia.
    eexists. split; [reflexivity|]. reflexivity.
  - rewrite bool_decide_eq_true_2 by lia.
    destruct (IH (c + 1) (id + 1) (after_request net (user_request id) w) rounds)
      as (w' & Hrun & Hsent); try lia.
    { intros j Hj. unfold after_request. cbn [cache]. apply Hinv. lia. }
    exists w'. split; [exact Hrun|]. rewrite Hsent.
    unfold after_request. cbn [sent].
    rewrite (seqZ_cons id (Z.of_nat (S (S d)))) by lia.
    rewrite fmap_cons, <- app_assoc. cbn [app].
    replace (Z.succ id) with (id + 1) by lia.
    replace (Z.pred (Z.of_nat (S (S d)))) with (Z.of_nat (S d)) by lia.
    reflexivity.
Qed.

Lemma get_users_found_then_misses (k : nat) id users w rounds :
  id + Z.of_nat k = n + 1 -> 1 <= id ->
  no_user_entry_from id w ->
  (k + 10 <= rounds)%nat ->
  exists w',
    get_users_loop config net rounds 0 id users w
    = (Ok (Some (users ++ ((fun i => resp_data (user i)) <$> seqZ id (Z.of_nat k)))), w')
    /\ sent w' = sent w ++ (user_request <$> seqZ id (Z.of_nat k + 10)).
Proof.
  revert id users w rounds.
  induction k as [|k IH]; intros id users w rounds Hk Hid Hinv Hrounds.
  - destruct (get_users_ten_misses 9 0 id users w rounds) as (w' & Hrun & Hsent);
      try lia; [exact Hinv|].
    exists w'. rewrite app_nil_r. split; [exact Hrun|exact Hsent].
  - destruct rounds as [|rounds]; [lia|].
    cbn [get_users_loop]. unfold mbind at 1. unfold M_bind at 1.
    rewrite (get_users_round_found _ _ _ _ _ _ (user id));
      [|lia|apply Hinv; lia|apply Hfound; lia].
    rewrite bool_decide_eq_true_2 by lia.
    set (w1 := if CACHE_ENABLED config then _ else _).
    destruct (IH (id + 1) (users ++ [resp_data (user id)]) w1 rounds)
      as (w' & Hrun & Hsent); try lia.
    { intros j Hj. unfold w1.
      destruct (CACHE_ENABLED config); unfold stored, after_request; cbn [cache].
      - rewrite lookup_insert_ne; [apply Hinv; lia|].
        intros Heq. apply user_key_inj in Heq. lia.
      - apply Hinv. lia. }
    exists w'. split.
    + rewrite Hrun. rewrite (seqZ_cons id (Z.of_nat (S k))) by lia.
      rewrite fmap_cons, <- app_assoc. cbn [app].
      replace (Z.succ id) with (id + 1) by lia.
      replace (Z.pred (Z.of_nat (S k))) with (Z.of_nat k) by lia.
      reflexivity.
    + rewrite Hsent.
      assert (sent w1 = sent w ++ [user_request id]) as ->.
      { unfold w1. destruct (CACHE_ENABLED config); reflexivity. }
      rewrite (seqZ_cons id (Z.of_nat (S k) + 10)) by lia.
      rewrite fmap_cons, <- app_assoc. cbn [app].
      replace (Z.succ id) with (id + 1) by lia.
      replace (Z.pred (Z.of_nat (S k) + 10)) with (Z.of_nat k + 10) by lia.
      reflexivity.
Qed.

End UserProbe.

(** X9.  On a tracker that has the users 1 to [n] and answers 404 for every
    higher id, the [get_users] loop ends after [n + 10] rounds: it returns
    the [n] users in the order of their ids, having asked for the ids 1 to
    [n + 10] once each - the ten ids after the last user included. *)
Theorem get_users_stops_after_ten_misses config net n user w rounds
    (Hn : 0 <= n)
    (Hfound : forall hist i,
        1 <= i <= n -> outcome (net hist (user_request i)) = Resolved (user i))
    (Hmissing : forall hist i,
        n < i ->
        exists error r,
          outcome (net hist (user_request i)) = Rejected error
          /\ err_response error = Some r /\ status r = 404)
    (Hcache : no_user_entry_from 1 w)
    (Hrounds : (Z.to_nat n + 10 <= rounds)%nat) :
  exists w',
    get_users config net rounds w
    = (Ok (Some ((fun i => resp_data (user i)) <$> seqZ 1 n)), w')
    /\ sent w' = sent w ++ (user_request <$> seqZ 1 (n + 10)).
Proof.
  destruct (get_users_found_then_misses config net n user Hfound Hmissing
              (Z.to_nat n) 1 [] w rounds) as (w' & Hrun & Hsent);
    try lia; [exact Hcache|].
  exists w'. rewrite Z2Nat.id in Hrun, Hsent by exact Hn.
  split; [exact Hrun|exact Hsent].
Qed.

Lemma user_request_inj i j : user_request i = user_request j -> i = j.
Proof.
  unfold user_request, get_request. intros H. injection H as H.
  apply append_inj_prefix in H. apply (inj pretty). exact H.
Qed.

Lemma get_users_stops_after_ten_misses_witness :
  exists w',
    get_users caching_on two_users_tracker 12 boot
    = (Ok (Some [VObj [("id", VNum (Num 1))]; VObj [("id", VNum (Num 2))]]), w')
    /\ length (sent w') = 12%nat.
Proof.
  destruct (get_users_stops_after_ten_misses caching_on two_users_tracker 2
              (fun i => http_ok (VObj [("id", VNum (Num i))])) boot 12)
    as (w' & Hrun & Hsent).
  - lia.
  - intros hist i Hi. assert (i = 1 \/ i = 2) as [-> | ->] by lia; reflexivity.
  - intros hist i Hi. exists not_found. eexists.
    split; [|split; reflexivity].
    unfold two_users_tracker.
    change "/users/1" with (url (user_request 1)).
    change "/users/2" with (url (user_request 2)).
    destruct (String.eqb_spec (url (user_request i)) (url (user_request 1))) as [Heq|_].
    { apply append_inj_prefix in Heq. apply (inj pretty) in Heq. lia. }
    destruct (String.eqb_spec (url (user_request i)) (url (user_request 2))) as [Heq|_].
    { apply append_inj_prefix in Heq. apply (inj pretty) in Heq. lia. }
    reflexivity.
  - intros j Hj. apply lookup_empty.
  - simpl. lia.
  - exists w'. split; [exact Hrun|]. rewrite Hsent. reflexivity.
Defined.

(** X10.  An error that is not a 404 - an HTTP 500, a tracker that does not
    answer - changes neither the id nor the counter of the [get_users]
    loop: as long as the tracker keeps failing that way for an id, the loop
    asks for the same id again, round after round, and never ends. *)
Theorem get_users_retries_other_errors config net id c users w rounds
    (Hid : id <> 0)
    (Hc : c < 10)
    (Hcache : cache w !! user_key id = None)
    (Hfail : forall hist,
        exists error,
          outcome (net hist (user_request id)) = Rejected error
          /\ forall r, err_response error = Some r -> status r <> 404) :
  exists w',
    get_users_loop config net rounds c id users w = (Ok None, w')
    /\ sent w' = sent w ++ replicate rounds (user_request id)
    /\ cache w' = cache w.
Proof.
  revert w Hcache. induction rounds as [|rounds IH]; intros w Hcache.
  - exists w. cbn. rewrite app_nil_r. auto.
  - destruct (Hfail (sent w)) as (error & Hout & Hnot).
    cbn [get_users_loop]. unfold mbind at 1. unfold M_bind at 1.
    rewrite (get_users_round_rejected _ _ _ _ _ _ error) by assumption.
    assert (match err_response error with
            | Some r => if bool_decide (status r = 404) then (c + 1, id + 1, users)
                        else (c, id, users)
            | None => (c, id, users)
            end = (c, id, users)) as ->.
    { destruct (err_response error) as [r|]; [|reflexivity].
      rewrite bool_decide_eq_false_2; [reflexivity|]. apply Hnot. reflexivity. }
    rewrite bool_decide_eq_true_2 by exact Hc.
    destruct (IH (after_request net (user_request id) w) Hcache) as (w' & Hrun & Hsent & Hc').
    exists w'. split; [exact Hrun|]. split; [|exact Hc'].
    rewrite Hsent. unfold after_request. cbn [sent replicate].
    rewrite <- app_assoc. reflexivity.
Qed.

Lemma get_users_retries_other_errors_witness :
  exists w',
    get_users caching_on down_tracker 40 boot = (Ok None, w')
    /\ sent w' = replicate 40 (user_request 1).
Proof.
  destruct (get_users_retries_other_errors caching_on down_tracker 1 0 [] boot 40)
    as (w' & Hrun & Hsent & _).
  - discriminate.
  - lia.
  - apply lookup_empty.
  - intros hist. exists no_response. split; [reflexivity|]. intros r Hr. discriminate Hr.
  - exists w'. split; [exact Hrun|exact Hsent].
Defined.

(** ** The tool wrapper *)

(** X11.  [withMantisConfigured] never throws.  Without an API key it runs
    nothing - the world is left as it was - and answers with the error flag
    set.  With a key it runs the action once: what the action returns is
    handed back without the flag, what it throws becomes a text built from
    the error, with the flag set. *)
Theorem withMantisConfigured_total JSON_stringify MANTIS_API_KEY toolName action w :
  exists result,
    withMantisConfigured JSON_stringify MANTIS_API_KEY toolName action w
    = (Ok result,
       if isMantisConfigured MANTIS_API_KEY then snd (action w) else w)
    /\ if isMantisConfigured MANTIS_API_KEY then
         match fst (action w) with
         | Ok v =>
             isError result = false
             /\ content_text result
                = match v with VStr _ => v | _ => JSON_stringify v end
         | Throw t =>
             isError result = true
             /\ content_text result
                = JSON_stringify (VObj [("error", VStr (error_message toolName t))])
         end
       else
         isError result = true
         /\ content_text result = JSON_stringify not_configured.
Proof.
  unfold withMantisConfigured, try_catch.
  destruct (isMantisConfigured MANTIS_API_KEY); cbn [negb].
  - unfold mbind, M_bind, mret, M_ret.
    destruct (action w) as [[v|t] w']; cbn [fst snd];
      eexists; (split; [reflexivity|]); split; reflexivity.
  - eexists. split; [reflexivity|]. split; reflexivity.
Qed.

Lemma append_empty_r s : s +:+ EmptyString = s.
Proof.
  induction s as [|a s IH]; [reflexivity|].
  change (String a (s +:+ EmptyString) = String a s). rewrite IH. reflexivity.
Qed.

(** X12.  How a rejected request of a read tool reaches the caller: the
    tool answers, flagged as an error, with the message of the interceptor
    after the words Mantis API error; the HTTP status is repeated at the end
    only when the tracker answered - a request without answer (status code
    0) and a request that could not be set up carry no status. *)
Theorem read_tool_rejected JSON_stringify MANTIS_API_KEY toolName config net rd req w error
    (Hkey : isMantisConfigured MANTIS_API_KEY = true)
    (Hreq : read_request rd = Some req)
    (Hmiss : read_hit config rd w = None)
    (Hout : outcome (net (sent w) req) = Rejected error) :
  withMantisConfigured JSON_stringify MANTIS_API_KEY toolName
    (read_action JSON_stringify config net rd) w
  = (Ok {| content_text :=
             JSON_stringify
               (VObj [("error", VStr ("Mantis API error: " +:+ failure_text error))]);
           isError := true |},
     after_request net req w).
Proof.
  unfold withMantisConfigured, try_catch, read_action. rewrite Hkey. cbn [negb].
  unfold mbind at 1. unfold M_bind at 1.
  unfold mbind at 1. unfold M_bind at 1.
  rewrite run_read_eq, Hreq, Hmiss, Hout.
  unfold mret, M_ret. do 3 f_equal. f_equal. f_equal. f_equal.
  unfold error_message, response_interceptor, failure_text.
  destruct (err_response error) as [r|]; cbn [message statusCode].
  - destruct (status r =? 0); rewrite ?append_assoc; reflexivity.
  - destruct (err_request error); cbn [message statusCode];
      rewrite ?append_empty_r; reflexivity.
Qed.

Lemma read_tool_rejected_witness :
  fst (withMantisConfigured error_member (Some "secret") "get_projects"
         (read_action error_member caching_on down_tracker ReadProjects) boot)
  = Ok {| content_text := VStr "Mantis API error: No API response received";
          isError := true |}.
Proof.
  rewrite (read_tool_rejected error_member (Some "secret") "get_projects"
             caching_on down_tracker ReadProjects (get_request "/projects") boot
             no_response eq_refl eq_refl eq_refl eq_refl).
  reflexivity.
Defined.

(** ** Issue statistics *)

Example issue_statistics_by_status :
  issue_statistics (fun _ _ => true) ByStatus PeriodAll three_issues
  = Ok (Statistics 3 {[ "new" := Count 2; "closed" := Count 1 ]}).
Proof. vm_compute. reflexivity. Qed.

Example issue_statistics_by_handler :
  issue_statistics (fun _ _ => true) ByHandler PeriodToday three_issues
  = Ok (Statistics 3 {[ "unassigned" := Count 3 ]}).
Proof. vm_compute. reflexivity. Qed.

Example issue_statistics_outside_period :
  issue_statistics (fun _ _ => false) ByStatus PeriodToday three_issues
  = Ok NoIssuesFound.
Proof. reflexivity. Qed.

(** An issue whose group key is [__proto__] is in [total] and in no group;
    issues whose group key is [constructor] make that group a text. *)
Example issue_statistics_inherited_names :
  issue_statistics (fun _ _ => true) ByStatus PeriodAll (VArr odd_issues)
  = Ok (Statistics 5 {[ "new" := Count 2; "constructor" := Text ]}).
Proof. vm_compute. reflexivity. Qed.

Lemma sum_counts_insert_fresh (data : gmap string Cell) key c :
  data !! key = None -> sum_counts (<[key := c]> data) = weight c + sum_counts data.
Proof.
  intros Hnone. unfold sum_counts.
  rewrite map_fold_insert_L; [reflexivity| |exact Hnone].
  intros j1 j2 z1 z2 y _ _ _. lia.
Qed.

Lemma sum_counts_insert (data : gmap string Cell) key c :
  sum_counts (<[key := c]> data)
  = weight c + sum_counts data - from_option weight 0 (data !! key).
Proof.
  destruct (data !! key) as [old|] eqn:Hk; cbn [from_option].
  - rewrite <- (insert_delete_eq data key c).
    rewrite sum_counts_insert_fresh by apply lookup_delete_eq.
    rewrite <- (insert_delete_id data key old Hk) at 2.
    rewrite sum_counts_insert_fresh by apply lookup_delete_eq. lia.
  - rewrite sum_counts_insert_fresh by exact Hk. lia.
Qed.

Lemma occurrences_cons key k keys :
  occurrences key (k :: keys)
  = (if bool_decide (k = key) then 1 else 0) + occurrences key keys.
Proof.
  unfold occurrences. rewrite filter_cons.
  case_bool_decide as Hk; destruct (decide (k = key)); try contradiction;
    cbn [length]; lia.
Qed.

Lemma occurrences_snoc key k keys :
  occurrences key (keys ++ [k])
  = occurrences key keys + (if bool_decide (k = key) then 1 else 0).
Proof.
  induction keys as [|k' keys IH].
  - cbn [app]. rewrite occurrences_cons. unfold occurrences. cbn. lia.
  - cbn [app]. rewrite !occurrences_cons, IH. lia.
Qed.

Lemma occurrences_nonneg key keys : 0 <= occurrences key keys.
Proof. unfold occurrences. lia. Qed.

Lemma plain_keys_snoc k keys :
  plain_keys (keys ++ [k])
  = plain_keys keys + (if bool_decide (k ∈ Object_prototype_names) then 0 else 1).
Proof.
  unfold plain_keys. rewrite filter_app, length_app, filter_cons, filter_nil.
  case_bool_decide as Hk; destruct (decide (k ∉ Object_prototype_names));
    try contradiction; cbn [length]; lia.
Qed.

Lemma tally_cells keys :
  (forall key, tally ∅ keys !! key = cell_after key keys)
  /\ sum_counts (tally ∅ keys) = plain_keys keys.
Proof.
  induction keys as [|k keys [IHcell IHsum]] using rev_ind.
  - split; [|reflexivity].
    intros key. unfold tally, cell_after. cbn [fold_left].
    rewrite lookup_empty. case_bool_decide; reflexivity.
  - unfold tally in *. rewrite fold_left_app. cbn [fold_left].
    set (data := fold_left count_key keys ∅) in *.
    assert (forall key, key <> k ->
              cell_after key (keys ++ [k]) = cell_after key keys) as Hother.
    { intros key Hne. unfold cell_after. rewrite occurrences_snoc.
      rewrite (bool_decide_eq_false_2 (k = key))
        by (intros Heq; apply Hne; symmetry; exact Heq).
      rewrite Z.add_0_r. reflexivity. }
    rewrite plain_keys_snoc. unfold count_key.
    case_bool_decide as Hproto.
    { subst k. split.
      - intros key. rewrite IHcell.
        destruct (decide (key = "__proto__")) as [->|Hne].
        + unfold cell_after. rewrite !bool_decide_eq_true_2 by reflexivity. reflexivity.
        + symmetry. apply Hother. exact Hne.
      - rewrite IHsum. rewrite bool_decide_eq_true_2; [lia|].
        apply (bool_decide_unpack _). vm_compute. exact I. }
    pose proof (occurrences_nonneg k keys) as Hnonneg.
    assert (cell_after k (keys ++ [k])
            = if bool_decide (k ∈ Object_prototype_names) then Some Text
              else Some (Count (occurrences k keys + 1))) as Hnew.
    { unfold cell_after. rewrite occurrences_snoc.
      rewrite (bool_decide_eq_false_2 (k = "__proto__")) by exact Hproto.
      rewrite (bool_decide_eq_true_2 (k = k)) by reflexivity.
      destruct (Z.eqb_spec (occurrences k keys + 1) 0); [lia|reflexivity]. }
    pose proof (IHcell k) as Hk. unfold cell_after in Hk.
    rewrite (bool_decide_eq_false_2 (k = "__proto__")) in Hk by exact Hproto.
    assert (forall c, (forall key, key <> k -> True) ->
              cell_after k (keys ++ [k]) = Some c ->
              weight c - from_option weight 0 (data !! k)
              = (if bool_decide (k ∈ Object_prototype_names) then 0 else 1) ->
              (forall key, <[k := c]> data !! key = cell_after key (keys ++ [k]))
              /\ sum_counts (<[k := c]> data)
                 = plain_keys keys
                   + (if bool_decide (k ∈ Object_prototype_names) then 0 else 1))
      as Hstep.
    { intros c _ Hc Hweight. split.
      - intros key. destruct (decide (key = k)) as [->|Hne].
        + rewrite lookup_insert_eq. symmetry. exact Hc.
        + rewrite lookup_insert_ne by (intros Heq; apply Hne; symmetry; exact Heq).
          rewrite IHcell. symmetry. apply Hother. exact Hne.
      - rewrite sum_counts_insert, IHsum. lia. }
    destruct (Z.eqb_spec (occurrences k keys) 0) as [Hzero|Hpos].
    + rewrite Hk. case_bool_decide as Hin.
      * apply Hstep; [auto|rewrite Hnew; reflexivity|rewrite Hk; reflexivity].
      * apply Hstep; [auto|rewrite Hnew, Hzero; reflexivity|rewrite Hk; reflexivity].
    + case_bool_decide as Hin; rewrite Hk.
      * apply Hstep; [auto|rewrite Hnew; reflexivity|rewrite Hk; reflexivity].
      * apply Hstep; [auto|rewrite Hnew; reflexivity|rewrite Hk; cbn; lia].
Qed.

Lemma filter_result_length {A} (f : A -> Result bool) l ys :
  filter_result f l = Ok ys -> (length ys <= length l)%nat.
Proof.
  revert ys. induction l as [|x l IH]; intros ys; cbn [filter_result].
  - intros H; inversion H. reflexivity.
  - destruct (f x) as [b|t]; [|discriminate].
    destruct (filter_result f l) as [zs|t]; [|discriminate].
    specialize (IH zs eq_refl).
    intros H; inversion H; subst. destruct b; cbn [length]; lia.
Qed.

Lemma map_result_length {A B} (f : A -> Result B) l ys :
  map_result f l = Ok ys -> length ys = length l.
Proof.
  revert ys. induction l as [|x l IH]; intros ys; cbn [map_result].
  - intros H; inversion H. reflexivity.
  - destruct (f x) as [y|t]; [|discriminate].
    destruct (map_result f l) as [zs|t]; [|discriminate].
    intros H; inversion H; subst. cbn [length]. rewrite (IH zs eq_refl). reflexivity.
Qed.

(** X13.  When [get_issue_statistics] has counted a list of issues,
    [total] is the number of issues fetched, taken before the period is
    applied.  Under a group key that [Object.prototype] does not name,
    [data] holds the number of issues of the period with that key, and has
    no member when there is none.  An issue whose key is [__proto__] is
    counted nowhere; issues whose key is another inherited name leave a
    text under that name, not a count.  So the counts add up to the number
    of issues of the period whose key is not an inherited name: at most the
    number of issues of the period, which is at most [total], and exactly
    [total] for the period [all] when no key is an inherited name. *)
Theorem issue_statistics_counts created_since groupBy period items total data
    (Hstats : issue_statistics created_since groupBy period (VArr items)
              = Ok (Statistics total data)) :
  exists filtered keys,
    match period with
    | PeriodAll => Ok items
    | _ => filter_result (created_in_period created_since period) items
    end = Ok filtered
    /\ map_result (group_key groupBy) filtered = Ok keys
    /\ total = Z.of_nat (length items)
    /\ (forall key, key ∉ Object_prototype_names ->
          data !! key = if occurrences key keys =? 0 then None
                        else Some (Count (occurrences key keys)))
    /\ data !! "__proto__" = None
    /\ (forall key, key ∈ Object_prototype_names -> key <> "__proto__" ->
          data !! key = if occurrences key keys =? 0 then None else Some Text)
    /\ sum_counts data
       = Z.of_nat (length (filter (fun k => k ∉ Object_prototype_names) keys))
    /\ sum_counts data <= Z.of_nat (length filtered) <= total
    /\ (period = PeriodAll ->
        Forall (fun k => k ∉ Object_prototype_names) keys ->
        sum_counts data = total).
Proof.
  unfold issue_statistics in Hstats.
  unfold mbind at 1 in Hstats. unfold Result_bind at 1 in Hstats.
  destruct (match period with
            | PeriodAll => Ok items
            | _ => filter_result (created_in_period created_since period) items
            end) as [filtered|t] eqn:Hfilter; [|discriminate].
  destruct filtered as [|x filtered]; [discriminate|].
  unfold mbind, Result_bind, mret, Result_ret in Hstats.
  destruct (map_result (group_key groupBy) (x :: filtered)) as [keys|t] eqn:Hkeys;
    [|discriminate].
  injection Hstats as Htotal Htally.
  destruct (tally_cells keys) as [Hcell Hsum].
  rewrite Htally in Hcell, Hsum. unfold plain_keys in Hsum.
  pose proof (map_result_length _ _ _ Hkeys) as Hlen.
  assert (length (x :: filtered) <= length items)%nat as Hle.
  { destruct period; try (apply (filter_result_length _ _ _ Hfilter)).
    inversion Hfilter; subst. reflexivity. }
  pose proof (length_filter (fun k => k ∉ Object_prototype_names) keys) as Hplain.
  exists (x :: filtered), keys.
  split; [reflexivity|]. split; [exact Hkeys|]. split; [symmetry; exact Htotal|].
  split; [|split; [|split; [|split; [exact Hsum|split]]]].
  - intros key Hkey. rewrite Hcell. unfold cell_after.
    rewrite bool_decide_eq_false_2.
    + rewrite (bool_decide_eq_false_2 _ Hkey). reflexivity.
    + intros ->. apply Hkey. apply (bool_decide_unpack _). vm_compute. exact I.
  - rewrite Hcell. unfold cell_after.
    rewrite bool_decide_eq_true_2 by reflexivity. reflexivity.
  - intros key Hkey Hne. rewrite Hcell. unfold cell_after.
    rewrite (bool_decide_eq_false_2 _ Hne), (bool_decide_eq_true_2 _ Hkey).
    reflexivity.
  - rewrite Hsum. lia.
  - intros -> Hall. rewrite Hsum. inversion Hfilter; subst items.
    assert (filter (fun k => k ∉ Object_prototype_names) keys = keys) as ->.
    { clear -Hall. induction Hall as [|k keys Hk Hall IH]; [reflexivity|].
      rewrite filter_cons. destruct (decide (k ∉ Object_prototype_names));
        [rewrite IH; reflexivity|contradiction]. }
    lia.
Qed.

Lemma issue_statistics_counts_witness :
  (exists data : gmap string Cell,
     issue_statistics (fun _ _ => true) ByStatus PeriodAll three_issues
     = Ok (Statistics 3 data)
     /\ sum_counts data = 3
     /\ data !! "new" = Some (Count 2))
  /\ (exists data : gmap string Cell,
        issue_statistics (fun _ _ => true) ByStatus PeriodAll (VArr odd_issues)
        = Ok (Statistics 5 data)
        /\ sum_counts data = 2
        /\ data !! "__proto__" = None
        /\ data !! "constructor" = Some Text).
Proof.
  split.
  - exists {[ "new" := Count 2; "closed" := Count 1 ]}.
    destruct (issue_statistics_counts (fun _ _ => true) ByStatus PeriodAll
                [VObj [("id", VNum (Num 1)); ("status", VObj [("name", VStr "new")])];
                 VObj [("id", VNum (Num 2)); ("status", VObj [("name", VStr "closed")])];
                 VObj [("id", VNum (Num 3)); ("status", VObj [("name", VStr "new")])]]
                3 {[ "new" := Count 2; "closed" := Count 1 ]})
      as (filtered & keys & Hfilter & Hkeys & _ & _ & _ & _ & _ & _ & Hsum).
    + vm_compute. reflexivity.
    + split; [vm_compute; reflexivity|]. split; [|vm_compute; reflexivity].
      apply Hsum; [reflexivity|].
      injection Hfilter as <-.
      vm_compute in Hkeys. injection Hkeys as <-.
      repeat constructor; apply (bool_decide_unpack _); vm_compute; exact I.
  - exists {[ "new" := Count 2; "constructor" := Text ]}.
    destruct (issue_statistics_counts (fun _ _ => true) ByStatus PeriodAll
                odd_issues 5 {[ "new" := Count 2; "constructor" := Text ]})
      as (filtered & keys & Hfilter & Hkeys & _ & _ & Hproto & Hnames & Hsum & _).
    + vm_compute. reflexivity.
    + split; [vm_compute; reflexivity|]. split; [|split; [exact Hproto|]].
      * rewrite Hsum. injection Hfilter as <-.
        vm_compute in Hkeys. injection Hkeys as <-.
        vm_compute. reflexivity.
      * vm_compute. reflexivity.
Defined.

(** ** The envelope of the SOAP search *)

Example soap_filterFields_search :
  soap_filterFields (search_for "a<b")
  = "<search>a&lt;b</search><project_id><id>3</id></project_id>".
Proof. reflexivity. Qed.

Example soap_pageNumber_second_page : soap_pageNumber (search_for "x") = Num 1.
Proof. reflexivity. Qed.

Lemma markup_app a b : markup (a +:+ b) = markup a ++ markup b.
Proof. unfold markup. rewrite chars_app. apply List.filter_app. Qed.

Lemma filter_none {A} (f : A -> bool) l :
  forallb (fun x => negb (f x)) l = true -> List.filter f l = [].
Proof.
  induction l as [|x l IH]; [reflexivity|]. cbn [forallb List.filter].
  intros H. apply andb_prop in H as [Hx Hl].
  destruct (f x); [discriminate|]. apply IH. exact Hl.
Qed.

Lemma markup_xmlEscape s : markup (xmlEscape s) = [].
Proof.
  unfold markup. apply filter_none.
  rewrite xmlEscape_escape_each. apply escape_each_no_markup.
Qed.

Lemma numeric_char_not_markup c : is_numeric_char c = true -> is_markup c = false.
Proof. destruct c as [[] [] [] [] [] [] [] []]; vm_compute; congruence. Qed.

Lemma markup_number n : markup (number_to_string n) = [].
Proof.
  destruct n as [|z]; [reflexivity|]. unfold markup. apply filter_none.
  cbn [number_to_string]. pose proof (pretty_Z_numeric z) as H.
  rewrite forallb_forall in *. intros c Hc.
  rewrite (numeric_char_not_markup c (H c Hc)). reflexivity.
Qed.

Lemma markup_text_element tag f :
  markup (text_element tag f)
  = if present_text f then markup ("<" +:+ tag +:+ "></" +:+ tag +:+ ">") else [].
Proof.
  unfold text_element, present_text. destruct f as [s|]; [|reflexivity].
  destruct (String.eqb s ""); [reflexivity|]. cbn [negb].
  rewrite !markup_app, markup_xmlEscape. reflexivity.
Qed.

Lemma markup_id_element tag f :
  markup (id_element tag f)
  = if present_number f
    then markup ("<" +:+ tag +:+ "><id></id></" +:+ tag +:+ ">") else [].
Proof.
  unfold id_element, present_number. destruct f as [n|]; [|reflexivity].
  destruct (truthy_number n); [|reflexivity].
  rewrite !markup_app, markup_number. reflexivity.
Qed.

(** X14.  Whatever the API key and the texts and numbers of a search are,
    they add no [<], [>] or quote to the SOAP envelope: the markup
    characters of the request body, in their order, depend only on which
    filters the search has. *)
Theorem soapBody_markup_fixed key key' params params'
    (Hshape : soap_shape params = soap_shape params') :
  markup (soapBody key params) = markup (soapBody key' params').
Proof.
  unfold soap_shape in Hshape.
  injection Hshape as H1 H2 H3 H4 H5 H6 H7.
  unfold soapBody, soap_filterFields.
  rewrite !markup_app, !markup_xmlEscape, !markup_number,
    !markup_text_element, !markup_id_element.
  rewrite H1, H2, H3, H4, H5, H6, H7. reflexivity.
Qed.

Lemma soapBody_markup_fixed_witness :
  markup (soapBody (Some "k<e>y") (search_for "</search><id>9</id>"))
  = markup (soapBody None (search_for "printer")).
Proof.
  apply soapBody_markup_fixed. reflexivity.
Defined.

(** ** The cache key and the request of [getIssues] *)

Lemma digits_then_dash d1 : forall d2 x y,
  forallb is_digit d1 = true -> forallb is_digit d2 = true ->
  d1 ++ dash :: x = d2 ++ dash :: y -> d1 = d2 /\ x = y.
Proof.
  induction d1 as [|c d1 IH]; intros [|c' d2] x y H1 H2 H; cbn [app forallb] in *.
  - injection H as H. split; [reflexivity|exact H].
  - injection H as Hc H. subst c'. discriminate H2.
  - injection H as Hc H. subst c. discriminate H1.
  - injection H as Hc H. subst c'.
    apply andb_prop in H1 as [_ H1]. apply andb_prop in H2 as [_ H2].
    destruct (IH d2 x y H1 H2 H) as [-> ->]. split; reflexivity.
Qed.

Lemma natural_number_digits n :
  natural_number n -> forallb is_digit (chars (number_to_string n)) = true.
Proof.
  destruct n as [|z]; [intros []|]. cbn [natural_number number_to_string].
  destruct z as [|p|p]; intros [Hz _]; [reflexivity| |lia].
  apply (pretty_N_digits (Npos p)).
Qed.

Lemma forallb_rev {A} (f : A -> bool) l : forallb f (rev l) = forallb f l.
Proof.
  induction l as [|x l IH]; [reflexivity|].
  cbn [rev forallb]. change (rev l ++ [x]) with (rev l ++ [x]).
  rewrite forallb_app, IH. cbn [forallb]. rewrite andb_true_r, andb_comm. reflexivity.
Qed.

Lemma key_parts_inj f1 f2 p1 p2 s1 s2 :
  forallb is_digit (chars p1) = true -> forallb is_digit (chars p2) = true ->
  forallb is_digit (chars s1) = true -> forallb is_digit (chars s2) = true ->
  f1 +:+ "-" +:+ p1 +:+ "-" +:+ s1 = f2 +:+ "-" +:+ p2 +:+ "-" +:+ s2 ->
  f1 = f2 /\ p1 = p2 /\ s1 = s2.
Proof.
  intros Hp1 Hp2 Hs1 Hs2 H.
  apply (f_equal chars) in H. rewrite !chars_app in H.
  apply (f_equal (@rev _)) in H. rewrite !rev_app_distr in H.
  change (rev (chars "-")) with [dash] in H. rewrite <- !app_assoc in H.
  cbn [app] in H.
  apply digits_then_dash in H as [Hs H]; [|rewrite forallb_rev; assumption..].
  apply digits_then_dash in H as [Hp H]; [|rewrite forallb_rev; assumption..].
  apply rev_inj in Hs, Hp, H.
  repeat split; apply chars_inj; assumption.
Qed.

(** X15.  When the page number and the page size of both calls are
    integers, not negative and below 10^21 - numbers printed as their
    decimal digits and nothing else - the cache key of [getIssues] tells
    the requests apart: two calls with the same key have the same filter,
    page and page size, and so send the same URL.  Nothing is said of a
    page or page size that is negative, has a fraction or is printed with
    an exponent: there the key can be that of another request. *)
Theorem issues_cacheKey_determines_url params1 params2
    (Hpage1 : natural_number (issues_page params1))
    (Hsize1 : natural_number (issues_pageSize params1))
    (Hpage2 : natural_number (issues_page params2))
    (Hsize2 : natural_number (issues_pageSize params2))
    (Hkey : issues_cacheKey params1 = issues_cacheKey params2) :
  issues_filter params1 = issues_filter params2
  /\ issues_page params1 = issues_page params2
  /\ issues_pageSize params1 = issues_pageSize params2
  /\ issues_url params1 = issues_url params2.
Proof.
  unfold issues_cacheKey in Hkey. apply append_inj_prefix in Hkey.
  apply key_parts_inj in Hkey as (Hf & Hp & Hs);
    try (apply natural_number_digits; assumption).
  apply number_to_string_inj in Hp, Hs.
  unfold issues_url. rewrite Hf, Hp, Hs. repeat split; reflexivity.
Qed.

Lemma issues_cacheKey_determines_url_witness :
  issues_url (params_of [F_dir "a-1"; F_page (Num 2)])
  = issues_url (params_of [F_page (Num 2); F_dir "a-1"; F_pageSize (Num 50)]).
Proof.
  apply (issues_cacheKey_determines_url
           (params_of [F_dir "a-1"; F_page (Num 2)])
           (params_of [F_page (Num 2); F_dir "a-1"; F_pageSize (Num 50)]));
    try (cbn; lia).
  reflexivity.
Defined.

(** With a negative page the key no longer tells the requests apart. *)
Example issues_cacheKey_negative_page :
  issues_cacheKey (params_of [F_dir "a-"; F_page (Num 1)])
  = issues_cacheKey (params_of [F_dir "a"; F_page (Num (-1))])
  /\ issues_url (params_of [F_dir "a-"; F_page (Num 1)])
     <> issues_url (params_of [F_dir "a"; F_page (Num (-1))]).
Proof. split; [reflexivity|discriminate]. Qed.

(** ** Errors of the SOAP search *)

Lemma prop_throw v k t : prop v k = Throw t -> t = TypeError_nullish.
Proof. destruct v; cbn [prop]; intros H; inversion H; reflexivity. Qed.

Lemma map_result_throw {A B} (f : A -> Result B) (P : Thrown -> Prop) l t :
  (forall x t', f x = Throw t' -> P t') ->
  map_result f l = Throw t -> P t.
Proof.
  intros Hf. induction l as [|x l IH]; cbn [map_result]; [discriminate|].
  destruct (f x) as [y|t'] eqn:Hx.
  - destruct (map_result f l) as [ys|t'']; [discriminate|].
    intros H; inversion H; subst. apply IH. reflexivity.
  - intros H; inversion H; subst. eapply Hf. exact Hx.
Qed.

Lemma map_custom_field_throw StringToNumber cf t :
  map_custom_field StringToNumber cf = Throw t -> t = TypeError_nullish.
Proof.
  unfold map_custom_field, mbind, Result_bind.
  destruct (prop cf "field") as [fld|t1] eqn:H1.
  - destruct (prop cf "value") as [val|t2] eqn:H2; [discriminate|].
    intros H; inversion H; subst. eapply prop_throw. exact H2.
  - intros H; inversion H; subst. eapply prop_throw. exact H1.
Qed.

Lemma mapSoapIssue_throw StringToNumber item t :
  mapSoapIssue StringToNumber item = Throw t -> t = TypeError_nullish.
Proof.
  destruct (nullish item) eqn:Hn.
  - destruct item; try discriminate Hn; cbn; intros H; inversion H; reflexivity.
  - unfold mapSoapIssue. rewrite !(prop_not_nullish item) by exact Hn.
    unfold mbind, Result_bind, mret, Result_ret.
    destruct (truthy (opt_prop item "custom_fields")); [|discriminate].
    destruct (map_result _ _) as [fields|t'] eqn:Hm; [discriminate|].
    intros H; inversion H; subst.
    apply (map_result_throw _ (fun t => t = TypeError_nullish) _ _
             (map_custom_field_throw StringToNumber) Hm).
Qed.

(** X16.  Whatever goes wrong in [searchIssues] - the request fails, the
    SOAP endpoint answers with an error status, the reply cannot be parsed,
    a fault is reported, an item cannot be mapped - the caller gets a
    [MantisApiError] without status code and without response body: unlike
    the REST client, the SOAP search never tells an HTTP status. *)
Theorem searchIssues_error_untyped (StringToNumber : string -> number) reply t
    (Hthrown : searchIssues StringToNumber reply = Throw t) :
  exists msg,
    t = ThrowMantisApiError
          {| message := msg; statusCode := None; response := VUndefined |}
    /\ match reply with
       | SoapFailed failure => msg = "SOAP search failed: " +:+ failure
       | SoapParsed _ => True
       end.
Proof.
  unfold searchIssues in Hthrown.
  destruct reply as [parsed|failure].
  - destruct (searchIssues_parsed StringToNumber parsed) as [issues|t'] eqn:Hp;
      [discriminate|].
    unfold searchIssues_parsed in Hp.
    destruct (negb (truthy _)) in Hp.
    + destruct (truthy _) in Hp; [|discriminate].
      inversion Hp; subst. inversion Hthrown; subst. eexists. split; [reflexivity|exact I].
    + apply (map_result_throw _ (fun t => t = TypeError_nullish) _ _
               (mapSoapIssue_throw StringToNumber)) in Hp.
      subst t'. cbn in Hthrown. inversion Hthrown; subst.
      eexists. split; [reflexivity|exact I].
  - inversion Hthrown; subst. eexists. split; reflexivity.
Qed.

Lemma searchIssues_error_untyped_witness :
  searchIssues StringToNumber_integer
    (SoapFailed "Request failed with status code 503")
  = Throw (ThrowMantisApiError
             {| message := "SOAP search failed: Request failed with status code 503";
                statusCode := None;
                response := VUndefined |}).
Proof.
  destruct (searchIssues_error_untyped StringToNumber_integer
              (SoapFailed "Request failed with status code 503")
              (ThrowMantisApiError
                 {| message := "SOAP search failed: Request failed with status code 503";
                    statusCode := None;
                    response := VUndefined |})
              eq_refl) as (msg & Ht & Hmsg).
  reflexivity.
Defined.

(** ** The note of a status change *)

Lemma refetch_issue_sent config net issueId w :
  sent (snd (refetch_issue config net issueId w)) = sent w ++ [issue_request issueId].
Proof.
  unfold refetch_issue.
  destruct (outcome _); [destruct (CACHE_ENABLED config)|]; reflexivity.
Qed.

(** X17.  [changeIssueStatus] with a note posts the note, as a public note,
    before anything else.  When the tracker rejects the note the error is
    thrown and no PATCH is sent: the status stays as it was, and so does the
    cache.  When the note is accepted the PATCH of the status (with the
    resolution when one is given and not empty) follows.  A PATCH answered
    with an issue ends the operation: that issue is returned and no GET is
    sent.  A PATCH answered without an issue, or rejected, is followed by
    the GET of the issue.  The note stays posted whatever becomes of the
    PATCH. *)
Theorem changeIssueStatus_note_first config net issueId st resolution n w
    (Hnote : n <> EmptyString) :
  let note :=
    {| method := POST;
       url := "/issues/" +:+ number_to_string issueId +:+ "/notes";
       body := VObj [("text", VStr n); ("view_state", VObj [("name", VStr "public")])] |} in
  let patch :=
    {| method := PATCH;
       url := "/issues/" +:+ number_to_string issueId;
       body := VObj (("status", VObj [("name", VStr st)]) ::
                     match resolution with
                     | Some r => if String.eqb r "" then []
                                 else [("resolution", VObj [("name", VStr r)])]
                     | None => []
                     end) |} in
  let get :=
    {| method := GET;
       url := "/issues/" +:+ number_to_string issueId;
       body := VUndefined |} in
  let done := changeIssueStatus config net issueId st resolution (Some n) w in
  match outcome (net (sent w) note) with
  | Rejected error =>
      done = (Throw (response_interceptor error),
              {| cache := cache w;
                 clock := clock w + elapsed (net (sent w) note);
                 sent := sent w ++ [note] |})
  | Resolved _ =>
      match outcome (net (sent w ++ [note]) patch) with
      | Resolved r =>
          if truthy (opt_prop (resp_data r) "issue")
          then fst done = Ok (opt_prop (resp_data r) "issue")
               /\ sent (snd done) = sent w ++ [note; patch]
          else sent (snd done) = sent w ++ [note; patch; get]
      | Rejected _ => sent (snd done) = sent w ++ [note; patch; get]
      end
  end.
Proof.
  intros note patch get done. unfold done.
  rewrite changeIssueStatus_eq. unfold note_step.
  destruct (String.eqb_spec n "") as [|_]; [contradiction|].
  rewrite addIssueNote_eq.
  change (note_request issueId (public_note n)) with note.
  destruct (outcome (net (sent w) note)) as [r0|error]; [|reflexivity].
  unfold echo_or_refetch.
  change (patch_request issueId (status_update st resolution)) with patch.
  cbn [sent cleared after_request].
  destruct (outcome (net (sent w ++ [note]) patch)) as [r|error];
    [destruct (truthy (opt_prop (resp_data r) "issue"))|].
  - split; [reflexivity|]. cbv zeta. cbn [snd sent cleared after_request].
    rewrite <- ?app_assoc. reflexivity.
  - rewrite refetch_issue_sent. cbn [sent cleared after_request].
    rewrite <- ?app_assoc. reflexivity.
  - rewrite refetch_issue_sent. cbn [sent cleared after_request].
    rewrite <- ?app_assoc. reflexivity.
Qed.

Lemma changeIssueStatus_note_first_witness :
  sent (snd (changeIssueStatus caching_on failing_tracker (Num 7) "closed" None
               (Some "done") boot))
  = [note_request (Num 7) (public_note "done")]
  /\ sent (snd (changeIssueStatus caching_on silent_tracker (Num 7) "closed" None
                  (Some "done") boot))
     = [note_request (Num 7) (public_note "done");
        patch_request (Num 7) (status_update "closed" None);
        issue_request (Num 7)]
  /\ sent (snd (changeIssueStatus caching_on echo_tracker (Num 7) "closed" None
                  (Some "done") boot))
     = [note_request (Num 7) (public_note "done");
        patch_request (Num 7) (status_update "closed" None)].
Proof.
  split; [|split].
  - pose proof (changeIssueStatus_note_first caching_on failing_tracker (Num 7)
                  "closed" None "done" boot) as H.
    cbv zeta in H. cbn [outcome failing_tracker method] in H.
    rewrite H by discriminate. reflexivity.
  - pose proof (changeIssueStatus_note_first caching_on silent_tracker (Num 7)
                  "closed" None "done" boot) as H.
    cbv zeta in H. cbn [outcome silent_tracker method] in H.
    cbn [truthy opt_prop resp_data http_ok assoc] in H.
    rewrite H by discriminate. reflexivity.
  - pose proof (changeIssueStatus_note_first caching_on echo_tracker (Num 7)
                  "closed" None "done" boot) as H.
    cbv zeta in H. cbn [outcome echo_tracker method] in H.
    cbn [truthy opt_prop resp_data http_ok assoc String.eqb Ascii.eqb Bool.eqb] in H.
    destruct H as [_ H]; [discriminate|].
    rewrite H. reflexivity.
Defined.
